(** * Pushover Terraform provider: client and resource handlers

    A shallow embedding of [internal/pushover/client.go] and of the two
    resource implementations of [internal/provider] (the message resource
    and the group-user resource), followed by the properties of the
    reconciliation rules.

    Conventions of the embedding:
    - a Go [string] is a [string]; Go [int] and [int64] values are [Z]
      (the only operations on them are comparisons with constants and
      decimal printing; [int] is taken to be 64 bits wide, so that
      [int(x)] of an [int64] is [x]);
    - a Go [error] is its message ([err.Error()]);
    - [url.Values] is a finite map from keys to values: the client only
      ever uses [Set], which leaves one value per key;
    - the HTTP round trip is the one effect: handlers run in a state monad
      over the log of requests handed to the transport, against a server
      that answers each request as a function of the requests seen so far. *)

From Stdlib Require Import ZArith Lia Ascii.
From stdpp Require Import base decidable option strings list gmap pretty.

Local Open Scope Z_scope.

(** ** Go errors and results *)

Inductive result (A : Type) : Type :=
| Ok (a : A)
| Err (msg : string).
Arguments Ok {A} a.
Arguments Err {A} msg.

Definition is_ok {A} (r : result A) : bool :=
  match r with Ok _ => true | Err _ => false end.

(** ** Framework values: [types.String], [types.Int64], [types.Bool]

    Each framework value is null, unknown or known; the [Value*] accessors
    return the zero value of the Go type when the value is not known. *)

Module types.

Inductive Value (A : Type) : Type :=
| Null
| Unknown
| Known (v : A).
Arguments Null {A}.
Arguments Unknown {A}.
Arguments Known {A} v.

Definition IsNull {A} (x : Value A) : bool :=
  match x with Null => true | _ => false end.

Definition IsUnknown {A} (x : Value A) : bool :=
  match x with Unknown => true | _ => false end.

Abbreviation String := (Value string).
Abbreviation Int64 := (Value Z).
Abbreviation Bool := (Value bool).

Definition StringValue (s : string) : String := Known s.
Definition BoolValue (b : bool) : Bool := Known b.

Definition ValueString (x : String) : string :=
  match x with Known s => s | _ => "" end.

Definition ValueInt64 (x : Int64) : Z :=
  match x with Known n => n | _ => 0 end.

Definition ValueBool (x : Bool) : bool :=
  match x with Known b => b | _ => false end.

#[global] Instance Value_eq_dec {A} `{EqDecision A} : EqDecision (Value A).
Proof. solve_decision. Defined.

End types.

(** [int(x)] for an [int64] [x]. *)
Definition int (x : Z) : Z := x.

(** ** Diagnostics *)

Module diag.

Inductive Severity := SeverityError | SeverityWarning.

Record Diagnostic := {
  Severity_ : Severity;
  Summary : string;
  Detail : string;
}.

#[global] Instance Severity_eq_dec : EqDecision Severity.
Proof. solve_decision. Defined.

#[global] Instance Diagnostic_eq_dec : EqDecision Diagnostic.
Proof. solve_decision. Defined.

Definition Diagnostics := list Diagnostic.

Definition NewErrorDiagnostic (summary detail : string) : Diagnostic :=
  {| Severity_ := SeverityError; Summary := summary; Detail := detail |}.

Definition isError (d : Diagnostic) : bool :=
  match Severity_ d with SeverityError => true | SeverityWarning => false end.

Definition HasError (ds : Diagnostics) : bool := existsb isError ds.

(** [Append] skips a diagnostic that the collection already holds. *)
Fixpoint Append (ds : Diagnostics) (new : list Diagnostic) : Diagnostics :=
  match new with
  | [] => ds
  | d :: rest =>
      if decide (d ∈ ds) then Append ds rest else Append (ds ++ [d]) rest
  end.

Definition AddError (ds : Diagnostics) (summary detail : string) : Diagnostics :=
  Append ds [NewErrorDiagnostic summary detail].

End diag.

(** ** The transport and the request log *)

Inductive Method := GET | POST.

#[global] Instance Method_eq_dec : EqDecision Method.
Proof. solve_decision. Defined.

(** What [doPost] and [doGet] hand to [http.NewRequestWithContext] and
    [httpClient.Do]: the method, the full URL, the Content-Type header
    ([doPost] sets it, [doGet] does not) and the form parameters that make
    up the body (none for a GET). *)
Record Request := {
  Method_ : Method;
  URL_ : string;
  ContentType : option string;
  Form : gmap string string;
}.

(** [GroupMember]: a row of a group's member listing. *)
Module GroupMember.
Record t := {
  User : string;
  Device : string;
  Memo : string;
  Disabled : bool;
}.
End GroupMember.

(** A response body that parsed as JSON, read through the keys that the
    response structs of the client declare. A key that is missing from the
    body leaves the Go zero value ([0], the empty string, no element). *)
Record Json := {
  json_status : Z;
  json_request : string;
  json_errors : list string;
  json_receipt : string;
  json_acknowledged : Z;
  json_acknowledged_at : Z;
  json_acknowledged_by : string;
  json_acknowledged_by_device : string;
  json_last_delivered_at : Z;
  json_expired : Z;
  json_expires_at : Z;
  json_called_back : Z;
  json_called_back_at : Z;
  json_sounds : gmap string string;
  json_group : Z;
  json_devices : list string;
  json_licenses : list string;
  json_name : string;
  json_users : list GroupMember.t;
}.

(** The ways one round trip can end, in the order [doPost] and [doGet]
    check them. *)
Inductive RoundTrip :=
| RequestNotCreated (err : string)
| NotSent (err : string)
| BodyNotRead (err : string)
| BodyNotDecoded (err : string)
| Body (j : Json).

(** The remote service with the transport in front of it: the outcome of a
    request may depend on every request made before it. *)
Definition Server := list Request -> Request -> RoundTrip.

(** Computations that talk to the server: the state is the log of requests
    made so far, oldest first. *)
Definition Remote (A : Type) : Type := list Request -> A * list Request.

Definition ret {A} (a : A) : Remote A := fun log => (a, log).

Definition bind {A B} (m : Remote A) (k : A -> Remote B) : Remote B :=
  fun log => let '(a, log') := m log in k a log'.

Notation "'let*' x ':=' m 'in' k" := (bind m (fun x => k))
  (at level 10, x pattern, m at level 100, k at level 200, only parsing).

Definition roundTrip (srv : Server) (r : Request) : Remote RoundTrip :=
  fun log => (srv log r, log ++ [r]).

(** Run a computation from an empty log. *)
Definition run {A} (m : Remote A) : A * list Request := m [].

(** ** Package [pushover]: the API client *)

(** [strconv.Itoa] and [strconv.FormatInt] in base 10. *)
Definition Itoa (n : Z) : string := pretty n.

(** [url.QueryEscape] of the Go standard library: letters, digits and
    [-], [_], [.], [~] are kept, a space becomes [+], every other byte
    becomes [%XX] in upper-case hexadecimal. *)
Definition unreserved (c : ascii) : bool :=
  let n := N_of_ascii c in
  ((48 <=? n) && (n <=? 57) || (65 <=? n) && (n <=? 90)
   || (97 <=? n) && (n <=? 122)
   || (n =? 45) || (n =? 95) || (n =? 46) || (n =? 126))%N.

Definition upperhex (n : N) : ascii :=
  ascii_of_N (if (n <? 10)%N then 48 + n else 55 + n)%N.

Fixpoint QueryEscape (s : string) : string :=
  match s with
  | EmptyString => EmptyString
  | String c rest =>
      if unreserved c then String c (QueryEscape rest)
      else if (N_of_ascii c =? 32)%N then String "+"%char (QueryEscape rest)
      else String "%"%char (String (upperhex (N_of_ascii c / 16))
                        (String (upperhex (N_of_ascii c mod 16))
                           (QueryEscape rest)))
  end.

(** [strings.Join]. *)
Definition Join (elems : list string) (sep : string) : string :=
  String.concat sep elems.

Module APIResponse.
Record t := {
  Status : Z;
  Request : string;
  Errors : list string;
}.
End APIResponse.

Module MessageRequest.
Record t := {
  Token : string;
  User : string;
  Message : string;
  Title : string;
  URL : string;
  URLTitle : string;
  Priority : Z;
  Sound : string;
  Device : string;
  Timestamp : Z;
  HTML : Z;
  Monospace : Z;
  TTL : Z;
  Retry : Z;
  Expire : Z;
  Callback : string;
}.

(** [req.Token = v] *)
Definition set_Token (req : t) (v : string) : t :=
  {| Token := v; User := User req; Message := Message req;
     Title := Title req; URL := URL req; URLTitle := URLTitle req;
     Priority := Priority req; Sound := Sound req; Device := Device req;
     Timestamp := Timestamp req; HTML := HTML req;
     Monospace := Monospace req; TTL := TTL req; Retry := Retry req;
     Expire := Expire req; Callback := Callback req |}.

(** [req.Retry = v] *)
Definition set_Retry (req : t) (v : Z) : t :=
  {| Token := Token req; User := User req; Message := Message req;
     Title := Title req; URL := URL req; URLTitle := URLTitle req;
     Priority := Priority req; Sound := Sound req; Device := Device req;
     Timestamp := Timestamp req; HTML := HTML req;
     Monospace := Monospace req; TTL := TTL req; Retry := v;
     Expire := Expire req; Callback := Callback req |}.

(** [req.Expire = v] *)
Definition set_Expire (req : t) (v : Z) : t :=
  {| Token := Token req; User := User req; Message := Message req;
     Title := Title req; URL := URL req; URLTitle := URLTitle req;
     Priority := Priority req; Sound := Sound req; Device := Device req;
     Timestamp := Timestamp req; HTML := HTML req;
     Monospace := Monospace req; TTL := TTL req; Retry := Retry req;
     Expire := v; Callback := Callback req |}.

(** [req.Callback = v] *)
Definition set_Callback (req : t) (v : string) : t :=
  {| Token := Token req; User := User req; Message := Message req;
     Title := Title req; URL := URL req; URLTitle := URLTitle req;
     Priority := Priority req; Sound := Sound req; Device := Device req;
     Timestamp := Timestamp req; HTML := HTML req;
     Monospace := Monospace req; TTL := TTL req; Retry := Retry req;
     Expire := Expire req; Callback := v |}.
End MessageRequest.

Module MessageResponse.
Record t := {
  API : APIResponse.t;
  Receipt : string;
}.
End MessageResponse.

Module ReceiptResponse.
Record t := {
  API : APIResponse.t;
  Acknowledged : Z;
  AcknowledgedAt : Z;
  AcknowledgedBy : string;
  AcknowledgedByDevice : string;
  LastDeliveredAt : Z;
  Expired : Z;
  ExpiresAt : Z;
  CalledBack : Z;
  CalledBackAt : Z;
}.
End ReceiptResponse.

Module Sound.
Record t := {
  Key : string;
  Name : string;
}.
End Sound.

Module ValidateRequest.
Record t := {
  Token : string;
  User : string;
  Device : string;
}.
End ValidateRequest.

Module ValidateResponse.
Record t := {
  API : APIResponse.t;
  Group : Z;
  Devices : list string;
  Licenses : list string;
}.

Definition IsGroupKey (v : t) : bool := bool_decide (Group v = 1).
End ValidateResponse.

Module GroupResponse.
Record t := {
  API : APIResponse.t;
  Name : string;
  Users : list GroupMember.t;
}.
End GroupResponse.

Module pushover.

Definition defaultBaseURL : string := "https://api.pushover.net/1".

(** The client: the configured token, the base URL, and the HTTP client,
    which stands for the transport and the service behind it. *)
Record Client := {
  token : string;
  baseURL : string;
  httpClient : Server;
}.

(** [NewClient] uses Go's default HTTP client, here the network [net]. *)
Definition NewClient (net : Server) (token : string) : Client :=
  {| token := token; baseURL := defaultBaseURL; httpClient := net |}.

Definition NewClientWithBase (token base : string) (httpClient : Server) : Client :=
  {| token := token; baseURL := base; httpClient := httpClient |}.

(** The structs that [json.Unmarshal] fills from a decoded body. *)
Definition toAPIResponse (j : Json) : APIResponse.t :=
  {| APIResponse.Status := json_status j;
     APIResponse.Request := json_request j;
     APIResponse.Errors := json_errors j |}.

Definition toMessageResponse (j : Json) : MessageResponse.t :=
  {| MessageResponse.API := toAPIResponse j;
     MessageResponse.Receipt := json_receipt j |}.

Definition toReceiptResponse (j : Json) : ReceiptResponse.t :=
  {| ReceiptResponse.API := toAPIResponse j;
     ReceiptResponse.Acknowledged := json_acknowledged j;
     ReceiptResponse.AcknowledgedAt := json_acknowledged_at j;
     ReceiptResponse.AcknowledgedBy := json_acknowledged_by j;
     ReceiptResponse.AcknowledgedByDevice := json_acknowledged_by_device j;
     ReceiptResponse.LastDeliveredAt := json_last_delivered_at j;
     ReceiptResponse.Expired := json_expired j;
     ReceiptResponse.ExpiresAt := json_expires_at j;
     ReceiptResponse.CalledBack := json_called_back j;
     ReceiptResponse.CalledBackAt := json_called_back_at j |}.

Definition toValidateResponse (j : Json) : ValidateResponse.t :=
  {| ValidateResponse.API := toAPIResponse j;
     ValidateResponse.Group := json_group j;
     ValidateResponse.Devices := json_devices j;
     ValidateResponse.Licenses := json_licenses j |}.

Definition toGroupResponse (j : Json) : GroupResponse.t :=
  {| GroupResponse.API := toAPIResponse j;
     GroupResponse.Name := json_name j;
     GroupResponse.Users := json_users j |}.

(** [doPost]: one POST round trip; the decoded body is returned only when
    its status is 1. *)
Definition doPost (c : Client) (path : string) (params : gmap string string)
  : Remote (result Json) :=
  let u := baseURL c +:+ path in
  let* rt := roundTrip (httpClient c)
               {| Method_ := POST; URL_ := u;
                  ContentType := Some "application/x-www-form-urlencoded";
                  Form := params |} in
  match rt with
  | RequestNotCreated err => ret (Err ("creating request: " +:+ err))
  | NotSent err => ret (Err ("sending request: " +:+ err))
  | BodyNotRead err => ret (Err ("reading response: " +:+ err))
  | BodyNotDecoded err => ret (Err ("decoding response: " +:+ err))
  | Body j =>
      if decide (json_status j ≠ 1)
      then ret (Err ("pushover API error: " +:+ Join (json_errors j) "; "))
      else ret (Ok j)
  end.

(** [doGet]: one GET round trip, checked like [doPost]. *)
Definition doGet (c : Client) (path : string) : Remote (result Json) :=
  let u := baseURL c +:+ path in
  let* rt := roundTrip (httpClient c)
               {| Method_ := GET; URL_ := u; ContentType := None;
                  Form := ∅ |} in
  match rt with
  | RequestNotCreated err => ret (Err ("creating request: " +:+ err))
  | NotSent err => ret (Err ("sending request: " +:+ err))
  | BodyNotRead err => ret (Err ("reading response: " +:+ err))
  | BodyNotDecoded err => ret (Err ("decoding response: " +:+ err))
  | Body j =>
      if decide (json_status j ≠ 1)
      then ret (Err ("pushover API error: " +:+ Join (json_errors j) "; "))
      else ret (Ok j)
  end.

(** [params.Set(key, value)] when [cond] holds. *)
Definition setIf (cond : bool) (key value : string)
  (params : gmap string string) : gmap string string :=
  if cond then <[key := value]> params else params.

(** The form that [SendMessage] builds from a request whose token has
    been settled. *)
Definition messageParams (req : MessageRequest.t) : gmap string string :=
  let params : gmap string string := ∅ in
  let params := <["token" := MessageRequest.Token req]> params in
  let params := <["user" := MessageRequest.User req]> params in
  let params := <["message" := MessageRequest.Message req]> params in
  let params := setIf (bool_decide (MessageRequest.Title req ≠ ""))
                  "title" (MessageRequest.Title req) params in
  let params := setIf (bool_decide (MessageRequest.URL req ≠ ""))
                  "url" (MessageRequest.URL req) params in
  let params := setIf (bool_decide (MessageRequest.URLTitle req ≠ ""))
                  "url_title" (MessageRequest.URLTitle req) params in
  let params := <["priority" := Itoa (MessageRequest.Priority req)]> params in
  let params := setIf (bool_decide (MessageRequest.Sound req ≠ ""))
                  "sound" (MessageRequest.Sound req) params in
  let params := setIf (bool_decide (MessageRequest.Device req ≠ ""))
                  "device" (MessageRequest.Device req) params in
  let params := setIf (bool_decide (MessageRequest.Timestamp req ≠ 0))
                  "timestamp" (Itoa (MessageRequest.Timestamp req)) params in
  let params := setIf (bool_decide (MessageRequest.HTML req ≠ 0))
                  "html" (Itoa (MessageRequest.HTML req)) params in
  let params := setIf (bool_decide (MessageRequest.Monospace req ≠ 0))
                  "monospace" (Itoa (MessageRequest.Monospace req)) params in
  let params := setIf (bool_decide (MessageRequest.TTL req ≠ 0))
                  "ttl" (Itoa (MessageRequest.TTL req)) params in
  if decide (MessageRequest.Priority req = 2) then
    let params := <["retry" := Itoa (MessageRequest.Retry req)]> params in
    let params := <["expire" := Itoa (MessageRequest.Expire req)]> params in
    setIf (bool_decide (MessageRequest.Callback req ≠ ""))
      "callback" (MessageRequest.Callback req) params
  else params.

(** [SendMessage]. The Go method stores the settled token back into the
    caller's request; no caller reads the request afterwards. *)
Definition SendMessage (c : Client) (req : MessageRequest.t)
  : Remote (result MessageResponse.t) :=
  let req := if decide (MessageRequest.Token req = "")
             then MessageRequest.set_Token req (token c) else req in
  let* r := doPost c "/messages.json" (messageParams req) in
  match r with
  | Err err => ret (Err err)
  | Ok j => ret (Ok (toMessageResponse j))
  end.

Definition GetReceipt (c : Client) (receipt : string)
  : Remote (result ReceiptResponse.t) :=
  let path := "/receipts/" +:+ receipt +:+ ".json?token="
                +:+ QueryEscape (token c) in
  let* r := doGet c path in
  match r with
  | Err err => ret (Err err)
  | Ok j => ret (Ok (toReceiptResponse j))
  end.

Definition CancelReceipt (c : Client) (receipt : string)
  : Remote (result APIResponse.t) :=
  let params : gmap string string := ∅ in
  let params := <["token" := token c]> params in
  let* r := doPost c ("/receipts/" +:+ receipt +:+ "/cancel.json") params in
  match r with
  | Err err => ret (Err err)
  | Ok j => ret (Ok (toAPIResponse j))
  end.

(** [GetSounds]. Go ranges over the decoded map in an unspecified order;
    the list below is one enumeration of it. *)
Definition GetSounds (c : Client) : Remote (result (list Sound.t)) :=
  let path := "/sounds.json?token=" +:+ QueryEscape (token c) in
  let* r := doGet c path in
  match r with
  | Err err => ret (Err err)
  | Ok j =>
      ret (Ok ((fun kv => {| Sound.Key := kv.1; Sound.Name := kv.2 |})
                 <$> map_to_list (json_sounds j)))
  end.

Definition ValidateUser (c : Client) (req : ValidateRequest.t)
  : Remote (result ValidateResponse.t) :=
  let tok := if decide (ValidateRequest.Token req = "")
             then token c else ValidateRequest.Token req in
  let params : gmap string string := ∅ in
  let params := <["token" := tok]> params in
  let params := <["user" := ValidateRequest.User req]> params in
  let params := setIf (bool_decide (ValidateRequest.Device req ≠ ""))
                  "device" (ValidateRequest.Device req) params in
  let* r := doPost c "/users/validate.json" params in
  match r with
  | Err err => ret (Err err)
  | Ok j => ret (Ok (toValidateResponse j))
  end.

Definition GetGroup (c : Client) (groupKey : string)
  : Remote (result GroupResponse.t) :=
  let path := "/groups/" +:+ groupKey +:+ ".json?token="
                +:+ QueryEscape (token c) in
  let* r := doGet c path in
  match r with
  | Err err => ret (Err err)
  | Ok j => ret (Ok (toGroupResponse j))
  end.

Definition RenameGroup (c : Client) (groupKey name : string)
  : Remote (result APIResponse.t) :=
  let params : gmap string string := ∅ in
  let params := <["token" := token c]> params in
  let params := <["name" := name]> params in
  let* r := doPost c ("/groups/" +:+ groupKey +:+ "/rename.json") params in
  match r with
  | Err err => ret (Err err)
  | Ok j => ret (Ok (toAPIResponse j))
  end.

Definition AddGroupUser (c : Client) (groupKey user device memo : string)
  : Remote (result APIResponse.t) :=
  let params : gmap string string := ∅ in
  let params := <["token" := token c]> params in
  let params := <["user" := user]> params in
  let params := setIf (bool_decide (device ≠ "")) "device" device params in
  let params := setIf (bool_decide (memo ≠ "")) "memo" memo params in
  let* r := doPost c ("/groups/" +:+ groupKey +:+ "/add_user.json") params in
  match r with
  | Err err => ret (Err err)
  | Ok j => ret (Ok (toAPIResponse j))
  end.

Definition RemoveGroupUser (c : Client) (groupKey user device : string)
  : Remote (result APIResponse.t) :=
  let params : gmap string string := ∅ in
  let params := <["token" := token c]> params in
  let params := <["user" := user]> params in
  let params := setIf (bool_decide (device ≠ "")) "device" device params in
  let* r := doPost c ("/groups/" +:+ groupKey +:+ "/delete_user.json") params in
  match r with
  | Err err => ret (Err err)
  | Ok j => ret (Ok (toAPIResponse j))
  end.

Definition EnableGroupUser (c : Client) (groupKey user device : string)
  : Remote (result APIResponse.t) :=
  let params : gmap string string := ∅ in
  let params := <["token" := token c]> params in
  let params := <["user" := user]> params in
  let params := setIf (bool_decide (device ≠ "")) "device" device params in
  let* r := doPost c ("/groups/" +:+ groupKey +:+ "/enable_user.json") params in
  match r with
  | Err err => ret (Err err)
  | Ok j => ret (Ok (toAPIResponse j))
  end.

Definition DisableGroupUser (c : Client) (groupKey user device : string)
  : Remote (result APIResponse.t) :=
  let params : gmap string string := ∅ in
  let params := <["token" := token c]> params in
  let params := <["user" := user]> params in
  let params := setIf (bool_decide (device ≠ "")) "device" device params in
  let* r := doPost c ("/groups/" +:+ groupKey +:+ "/disable_user.json") params in
  match r with
  | Err err => ret (Err err)
  | Ok j => ret (Ok (toAPIResponse j))
  end.

End pushover.

(** ** Package [provider]: the resources

    A handler receives the request and a response that the framework has
    prepared, and fills the response in. [req.Plan.Get] and [req.State.Get]
    decode the planned and the stored values into the resource's model:
    the handlers below take the decoded models as arguments, and decoding
    contributes no diagnostic. [State] is the state held by the response:
    [None] is the null state (no resource), [resp.State.Set] stores a model
    (encoding it contributes no diagnostic either) and
    [resp.State.RemoveResource] stores the null state. *)

Module resource.

Record Response (Model : Type) := {
  Diagnostics : diag.Diagnostics;
  State : option Model;
}.
Arguments Diagnostics {Model} r.
Arguments State {Model} r.

Definition AddError {Model} (resp : Response Model) (summary detail : string)
  : Response Model :=
  {| Diagnostics := diag.AddError (Diagnostics resp) summary detail;
     State := State resp |}.

Definition StateSet {Model} (resp : Response Model) (data : Model)
  : Response Model :=
  {| Diagnostics := diag.Append (Diagnostics resp) []; State := Some data |}.

Definition RemoveResource {Model} (resp : Response Model) : Response Model :=
  {| Diagnostics := Diagnostics resp; State := None |}.

(** The response handed to [Create]: no diagnostics, the null state. *)
Definition newCreateResponse {Model} : Response Model :=
  {| Diagnostics := []; State := None |}.

(** The response handed to [Read] and to [Update]: no diagnostics, the
    stored state. *)
Definition newResponse {Model} (stored : Model) : Response Model :=
  {| Diagnostics := []; State := Some stored |}.

End resource.

Module MessageResource.

Record MessageResource := {
  client : pushover.Client;
}.

Record MessageResourceModel := {
  UserKey : types.String;
  Message : types.String;
  APIToken : types.String;
  Title : types.String;
  URL : types.String;
  URLTitle : types.String;
  Priority : types.Int64;
  Sound : types.String;
  Device : types.String;
  Timestamp : types.Int64;
  HTML : types.Bool;
  Monospace : types.Bool;
  TTL : types.Int64;
  Retry : types.Int64;
  Expire : types.Int64;
  Callback : types.String;
  Receipt : types.String;
  RequestID : types.String;
}.

(** [data.Receipt = receipt; data.RequestID = requestID] *)
Definition set_Receipt_RequestID (data : MessageResourceModel)
  (receipt requestID : types.String) : MessageResourceModel :=
  {| UserKey := UserKey data; Message := Message data;
     APIToken := APIToken data; Title := Title data; URL := URL data;
     URLTitle := URLTitle data; Priority := Priority data;
     Sound := Sound data; Device := Device data;
     Timestamp := Timestamp data; HTML := HTML data;
     Monospace := Monospace data; TTL := TTL data; Retry := Retry data;
     Expire := Expire data; Callback := Callback data;
     Receipt := receipt; RequestID := requestID |}.

(** The request as [Create] has it when it reaches the priority check:
    every field that is assigned under a condition holds the Go zero
    value when the condition fails. *)
Definition buildRequest (data : MessageResourceModel) : MessageRequest.t :=
  {| MessageRequest.User := types.ValueString (UserKey data);
     MessageRequest.Message := types.ValueString (Message data);
     MessageRequest.Token :=
       if negb (types.IsNull (APIToken data))
          && negb (types.IsUnknown (APIToken data))
       then types.ValueString (APIToken data) else "";
     MessageRequest.Title :=
       if negb (types.IsNull (Title data))
       then types.ValueString (Title data) else "";
     MessageRequest.URL :=
       if negb (types.IsNull (URL data))
       then types.ValueString (URL data) else "";
     MessageRequest.URLTitle :=
       if negb (types.IsNull (URLTitle data))
       then types.ValueString (URLTitle data) else "";
     MessageRequest.Priority :=
       if negb (types.IsNull (Priority data))
       then int (types.ValueInt64 (Priority data)) else 0;
     MessageRequest.Sound :=
       if negb (types.IsNull (Sound data))
       then types.ValueString (Sound data) else "";
     MessageRequest.Device :=
       if negb (types.IsNull (Device data))
       then types.ValueString (Device data) else "";
     MessageRequest.Timestamp :=
       if negb (types.IsNull (Timestamp data))
       then types.ValueInt64 (Timestamp data) else 0;
     MessageRequest.HTML :=
       if negb (types.IsNull (HTML data)) && types.ValueBool (HTML data)
       then 1 else 0;
     MessageRequest.Monospace :=
       if negb (types.IsNull (Monospace data))
          && types.ValueBool (Monospace data)
       then 1 else 0;
     MessageRequest.TTL :=
       if negb (types.IsNull (TTL data))
       then int (types.ValueInt64 (TTL data)) else 0;
     MessageRequest.Retry := 0;
     MessageRequest.Expire := 0;
     MessageRequest.Callback := "" |}.

Definition CreateResponse := resource.Response MessageResourceModel.

(** The end of [Create]: the send, and what is stored after it. *)
Definition send (r : MessageResource) (data : MessageResourceModel)
  (msgReq : MessageRequest.t) (resp : CreateResponse)
  : Remote CreateResponse :=
  let* result := pushover.SendMessage (client r) msgReq in
  match result with
  | Err err =>
      ret (resource.AddError resp "Failed to send Pushover message" err)
  | Ok result =>
      let data :=
        set_Receipt_RequestID data
          (types.StringValue (MessageResponse.Receipt result))
          (types.StringValue
             (APIResponse.Request (MessageResponse.API result))) in
      ret (resource.StateSet resp data)
  end.

Definition Create (r : MessageResource) (plan : MessageResourceModel)
  (resp : CreateResponse) : Remote CreateResponse :=
  let data := plan in
  if diag.HasError (resource.Diagnostics resp) then ret resp else
  let msgReq := buildRequest data in
  if decide (MessageRequest.Priority msgReq = 2) then
    if types.IsNull (Retry data) || types.IsNull (Expire data) then
      ret (resource.AddError resp "Missing Emergency Fields"
             "When priority is 2 (emergency), both retry and expire must be set.")
    else
      let msgReq :=
        MessageRequest.set_Retry msgReq (int (types.ValueInt64 (Retry data))) in
      let msgReq :=
        MessageRequest.set_Expire msgReq (int (types.ValueInt64 (Expire data))) in
      let msgReq :=
        if negb (types.IsNull (Callback data))
        then MessageRequest.set_Callback msgReq
               (types.ValueString (Callback data))
        else msgReq in
      send r data msgReq resp
  else send r data msgReq resp.

(** [Read], [Update] and [Delete] do nothing. *)
Definition Read (r : MessageResource) (resp : CreateResponse)
  : Remote CreateResponse := ret resp.
Definition Update (r : MessageResource) (resp : CreateResponse)
  : Remote CreateResponse := ret resp.
Definition Delete (r : MessageResource) (resp : CreateResponse)
  : Remote CreateResponse := ret resp.

End MessageResource.

Module GroupUserResource.

Record GroupUserResource := {
  client : pushover.Client;
}.

Record GroupUserResourceModel := {
  GroupKey : types.String;
  UserKey : types.String;
  Device : types.String;
  Memo : types.String;
  Disabled : types.Bool;
  ID : types.String;
}.

#[global] Instance GroupUserResourceModel_eq_dec :
  EqDecision GroupUserResourceModel.
Proof. solve_decision. Defined.

(** [data.ID = v] *)
Definition set_ID (data : GroupUserResourceModel) (v : types.String)
  : GroupUserResourceModel :=
  {| GroupKey := GroupKey data; UserKey := UserKey data;
     Device := Device data; Memo := Memo data; Disabled := Disabled data;
     ID := v |}.

(** [data.Memo = v] *)
Definition set_Memo (data : GroupUserResourceModel) (v : types.String)
  : GroupUserResourceModel :=
  {| GroupKey := GroupKey data; UserKey := UserKey data;
     Device := Device data; Memo := v; Disabled := Disabled data;
     ID := ID data |}.

(** [data.Disabled = v] *)
Definition set_Disabled (data : GroupUserResourceModel) (v : types.Bool)
  : GroupUserResourceModel :=
  {| GroupKey := GroupKey data; UserKey := UserKey data;
     Device := Device data; Memo := Memo data; Disabled := v;
     ID := ID data |}.

Definition Response := resource.Response GroupUserResourceModel.

Definition Create (r : GroupUserResource) (plan : GroupUserResourceModel)
  (resp : Response) : Remote Response :=
  let data := plan in
  if diag.HasError (resource.Diagnostics resp) then ret resp else
  let groupKey := types.ValueString (GroupKey data) in
  let userKey := types.ValueString (UserKey data) in
  let device := types.ValueString (Device data) in
  let memo := types.ValueString (Memo data) in
  let* added := pushover.AddGroupUser (client r) groupKey userKey device memo in
  match added with
  | Err err => ret (resource.AddError resp "Failed to add user to group" err)
  | Ok _ =>
      let id := groupKey +:+ "/" +:+ userKey in
      let id := if decide (device ≠ "") then id +:+ "/" +:+ device else id in
      let data := set_ID data (types.StringValue id) in
      if negb (types.IsNull (Disabled data)) && types.ValueBool (Disabled data)
      then
        let* disabled :=
          pushover.DisableGroupUser (client r) groupKey userKey device in
        match disabled with
        | Err err =>
            ret (resource.AddError resp "Failed to disable group user" err)
        | Ok _ => ret (resource.StateSet resp data)
        end
      else ret (resource.StateSet resp data)
  end.

(** The row test of [Read]'s loop. *)
Definition matches (userKey device : string) (member : GroupMember.t) : bool :=
  bool_decide (GroupMember.User member = userKey)
  && (bool_decide (device = "")
      || bool_decide (GroupMember.Device member = device)).

(** [Read]'s loop over the listing: it stops at the first row that passes
    the test; the result is [found] and the updated [data]. *)
Fixpoint findMember (users : list GroupMember.t) (userKey device : string)
  (data : GroupUserResourceModel) : bool * GroupUserResourceModel :=
  match users with
  | [] => (false, data)
  | member :: rest =>
      if matches userKey device member then
        let data :=
          set_Disabled data (types.BoolValue (GroupMember.Disabled member)) in
        let data :=
          if decide (GroupMember.Memo member ≠ "")
          then set_Memo data (types.StringValue (GroupMember.Memo member))
          else data in
        (true, data)
      else findMember rest userKey device data
  end.

Definition Read (r : GroupUserResource) (state : GroupUserResourceModel)
  (resp : Response) : Remote Response :=
  let data := state in
  if diag.HasError (resource.Diagnostics resp) then ret resp else
  let groupKey := types.ValueString (GroupKey data) in
  let userKey := types.ValueString (UserKey data) in
  let device := types.ValueString (Device data) in
  let* got := pushover.GetGroup (client r) groupKey in
  match got with
  | Err err => ret (resource.AddError resp "Failed to read group" err)
  | Ok groupResp =>
      let '(found, data) :=
        findMember (GroupResponse.Users groupResp) userKey device data in
      if negb found then ret (resource.RemoveResource resp)
      else ret (resource.StateSet resp data)
  end.

(** The enable/disable step of [Update], and the store after it. *)
Definition toggle (r : GroupUserResource) (data state : GroupUserResourceModel)
  (resp : Response) : Remote Response :=
  let groupKey := types.ValueString (GroupKey data) in
  let userKey := types.ValueString (UserKey data) in
  let device := types.ValueString (Device data) in
  if decide (Disabled data ≠ Disabled state) then
    if types.ValueBool (Disabled data) then
      let* res := pushover.DisableGroupUser (client r) groupKey userKey device in
      match res with
      | Err err =>
          ret (resource.AddError resp "Failed to disable group user" err)
      | Ok _ => ret (resource.StateSet resp data)
      end
    else
      let* res := pushover.EnableGroupUser (client r) groupKey userKey device in
      match res with
      | Err err =>
          ret (resource.AddError resp "Failed to enable group user" err)
      | Ok _ => ret (resource.StateSet resp data)
      end
  else ret (resource.StateSet resp data).

Definition Update (r : GroupUserResource) (plan state : GroupUserResourceModel)
  (resp : Response) : Remote Response :=
  let data := plan in
  if diag.HasError (resource.Diagnostics resp) then ret resp else
  let groupKey := types.ValueString (GroupKey data) in
  let userKey := types.ValueString (UserKey data) in
  let device := types.ValueString (Device data) in
  if decide (Memo data ≠ Memo state) then
    let* res := pushover.AddGroupUser (client r) groupKey userKey device
                  (types.ValueString (Memo data)) in
    match res with
    | Err err =>
        ret (resource.AddError resp "Failed to update group user memo" err)
    | Ok _ => toggle r data state resp
    end
  else toggle r data state resp.

Definition Delete (r : GroupUserResource) (state : GroupUserResourceModel)
  (resp : Response) : Remote Response :=
  let data := state in
  if diag.HasError (resource.Diagnostics resp) then ret resp else
  let groupKey := types.ValueString (GroupKey data) in
  let userKey := types.ValueString (UserKey data) in
  let device := types.ValueString (Device data) in
  let* res := pushover.RemoveGroupUser (client r) groupKey userKey device in
  match res with
  | Err err =>
      ret (resource.AddError resp "Failed to remove user from group" err)
  | Ok _ => ret resp
  end.

End GroupUserResource.

(** ** The provider and the data sources *)

Module PushoverProvider.

Record PushoverProviderModel := {
  APIToken : types.String;
}.

(** [provider.ConfigureResponse]: the diagnostics and the two values that
    the framework passes on to data sources and to resources ([None] is
    Go's nil). *)
Record ConfigureResponse := {
  Diagnostics : diag.Diagnostics;
  DataSourceData : option pushover.Client;
  ResourceData : option pushover.Client;
}.

(** [Configure]. [getenv] is [os.Getenv] (the empty string for a variable
    that is not set) and [net] the network that [NewClient]'s HTTP client
    reaches. *)
Definition Configure (getenv : string -> string) (net : Server)
  (config : PushoverProviderModel) (resp : ConfigureResponse)
  : ConfigureResponse :=
  let data := config in
  if diag.HasError (Diagnostics resp) then resp else
  let apiToken := getenv "PUSHOVER_API_TOKEN" in
  let apiToken :=
    if negb (types.IsNull (APIToken data))
       && negb (types.IsUnknown (APIToken data))
    then types.ValueString (APIToken data) else apiToken in
  if decide (apiToken = "") then
    {| Diagnostics :=
         diag.AddError (Diagnostics resp) "Missing API Token"
           ("The provider requires a Pushover application API token. "
            +:+ "Set the api_token attribute or the PUSHOVER_API_TOKEN environment variable.");
       DataSourceData := DataSourceData resp;
       ResourceData := ResourceData resp |}
  else
    let client := pushover.NewClient net apiToken in
    {| Diagnostics := Diagnostics resp;
       DataSourceData := Some client;
       ResourceData := Some client |}.

End PushoverProvider.

(** The data sources fill a response of the same shape as the resources
    do; [types.List] and [types.Map] hold strings here, and building them
    from Go strings ([types.ListValueFrom], [types.ListValue],
    [types.MapValue]) contributes no diagnostic. *)

Module ValidateUserDataSource.

Record ValidateUserDataSource := {
  client : pushover.Client;
}.

Record ValidateUserDataSourceModel := {
  UserKey : types.String;
  Device : types.String;
  APIToken : types.String;
  IsGroup : types.Bool;
  Devices : types.Value (list string);
  Licenses : types.Value (list string);
  ID : types.String;
}.

Definition ReadResponse := resource.Response ValidateUserDataSourceModel.

Definition Read (d : ValidateUserDataSource)
  (config : ValidateUserDataSourceModel) (resp : ReadResponse)
  : Remote ReadResponse :=
  let data := config in
  if diag.HasError (resource.Diagnostics resp) then ret resp else
  let validateReq :=
    {| ValidateRequest.User := types.ValueString (UserKey data);
       ValidateRequest.Device :=
         if negb (types.IsNull (Device data))
         then types.ValueString (Device data) else "";
       ValidateRequest.Token :=
         if negb (types.IsNull (APIToken data))
         then types.ValueString (APIToken data) else "" |} in
  let* result := pushover.ValidateUser (client d) validateReq in
  match result with
  | Err err =>
      ret (resource.AddError resp "Failed to validate Pushover user" err)
  | Ok result =>
      let devicesTF : types.Value (list string) :=
        types.Known (ValidateResponse.Devices result) in
      let licensesTF : types.Value (list string) :=
        types.Known (ValidateResponse.Licenses result) in
      if diag.HasError (resource.Diagnostics resp) then ret resp else
      let data :=
        {| UserKey := UserKey data; Device := Device data;
           APIToken := APIToken data;
           IsGroup := types.BoolValue (ValidateResponse.IsGroupKey result);
           Devices := devicesTF; Licenses := licensesTF;
           ID := UserKey data |} in
      ret (resource.StateSet resp data)
  end.

End ValidateUserDataSource.

Module SoundsDataSource.

Record SoundsDataSource := {
  client : pushover.Client;
}.

Record SoundsDataSourceModel := {
  Sounds : types.Value (gmap string string);
  Keys : types.Value (list string);
  ID : types.String;
}.

Definition ReadResponse := resource.Response SoundsDataSourceModel.

(** [Read]'s loop over the sounds: the map from key to name and the list
    of keys, in the order of the sounds. *)
Definition collect (sounds : list Sound.t)
  : gmap string string * list string :=
  foldl (fun acc s =>
           (<[Sound.Key s := Sound.Name s]> acc.1, acc.2 ++ [Sound.Key s]))
    (∅, []) sounds.

Definition Read (d : SoundsDataSource) (resp : ReadResponse)
  : Remote ReadResponse :=
  let* got := pushover.GetSounds (client d) in
  match got with
  | Err err =>
      ret (resource.AddError resp "Failed to fetch Pushover sounds" err)
  | Ok sounds =>
      let '(soundsMap, keysList) := collect sounds in
      let soundsTF : types.Value (gmap string string) :=
        types.Known soundsMap in
      if diag.HasError (resource.Diagnostics resp) then ret resp else
      let keysTF : types.Value (list string) := types.Known keysList in
      if diag.HasError (resource.Diagnostics resp) then ret resp else
      let state :=
        {| Sounds := soundsTF; Keys := keysTF;
           ID := types.StringValue "sounds" |} in
      ret (resource.StateSet resp state)
  end.

End SoundsDataSource.

(** * Notions used in the statements *)

(** ** Outcomes of a round trip and the requests of the calls *)

(** The check that [doPost] and [doGet] make on the outcome of a round
    trip. *)
Definition checked (rt : RoundTrip) : result Json :=
  match rt with
  | RequestNotCreated err => Err ("creating request: " +:+ err)
  | NotSent err => Err ("sending request: " +:+ err)
  | BodyNotRead err => Err ("reading response: " +:+ err)
  | BodyNotDecoded err => Err ("decoding response: " +:+ err)
  | Body j =>
      if decide (json_status j ≠ 1)
      then Err ("pushover API error: " +:+ Join (json_errors j) "; ")
      else Ok j
  end.

(** A round trip succeeds when a body was decoded and its status is 1. *)
Definition succeeded (rt : RoundTrip) : bool :=
  match rt with
  | Body j => bool_decide (json_status j = 1)
  | _ => false
  end.

(** What a client method does with the result of [doPost] or [doGet]: an
    error is passed on, a body is read into the method's response struct. *)
Definition mapResult {A B} (f : A -> B) (r : result A) : result B :=
  match r with Ok a => Ok (f a) | Err e => Err e end.

(** The request that [doPost] hands to the transport. *)
Definition postRequest (c : pushover.Client) (path : string)
  (params : gmap string string) : Request :=
  {| Method_ := POST; URL_ := pushover.baseURL c +:+ path;
     ContentType := Some "application/x-www-form-urlencoded";
     Form := params |}.

(** The request that [doGet] hands to the transport. *)
Definition getRequest (c : pushover.Client) (path : string) : Request :=
  {| Method_ := GET; URL_ := pushover.baseURL c +:+ path;
     ContentType := None; Form := ∅ |}.

(** The form shared by the group-member calls. *)
Definition memberParams (c : pushover.Client) (user device : string)
  : gmap string string :=
  pushover.setIf (bool_decide (device ≠ "")) "device" device
    (<["user" := user]> (<["token" := pushover.token c]> ∅)).

(** The requests that the group calls hand to the transport. *)
Definition addUserRequest (c : pushover.Client) (groupKey user device memo : string)
  : Request :=
  postRequest c ("/groups/" +:+ groupKey +:+ "/add_user.json")
    (pushover.setIf (bool_decide (memo ≠ "")) "memo" memo
       (memberParams c user device)).

Definition removeUserRequest (c : pushover.Client) (groupKey user device : string)
  : Request :=
  postRequest c ("/groups/" +:+ groupKey +:+ "/delete_user.json")
    (memberParams c user device).

Definition enableUserRequest (c : pushover.Client) (groupKey user device : string)
  : Request :=
  postRequest c ("/groups/" +:+ groupKey +:+ "/enable_user.json")
    (memberParams c user device).

Definition disableUserRequest (c : pushover.Client) (groupKey user device : string)
  : Request :=
  postRequest c ("/groups/" +:+ groupKey +:+ "/disable_user.json")
    (memberParams c user device).

Definition getGroupRequest (c : pushover.Client) (groupKey : string) : Request :=
  getRequest c ("/groups/" +:+ groupKey +:+ ".json?token="
                +:+ QueryEscape (pushover.token c)).

(** The token that [SendMessage] settles on. *)
Definition settleToken (c : pushover.Client) (req : MessageRequest.t)
  : MessageRequest.t :=
  if decide (MessageRequest.Token req = "")
  then MessageRequest.set_Token req (pushover.token c) else req.

(** The request of [SendMessage]. *)
Definition sendMessageRequest (c : pushover.Client) (req : MessageRequest.t)
  : Request :=
  postRequest c "/messages.json" (pushover.messageParams (settleToken c req)).

(** ** The message resource *)

(** The diagnostic of [Create]'s check of the emergency fields. *)
Definition missingEmergencyFields : diag.Diagnostic :=
  diag.NewErrorDiagnostic "Missing Emergency Fields"
    "When priority is 2 (emergency), both retry and expire must be set.".

(** The request that [Create] passes to [SendMessage] when it gets there. *)
Definition requestSent (data : MessageResource.MessageResourceModel)
  : MessageRequest.t :=
  let msgReq := MessageResource.buildRequest data in
  if decide (MessageRequest.Priority msgReq = 2) then
    let msgReq :=
      MessageRequest.set_Expire
        (MessageRequest.set_Retry msgReq
           (int (types.ValueInt64 (MessageResource.Retry data))))
        (int (types.ValueInt64 (MessageResource.Expire data))) in
    if negb (types.IsNull (MessageResource.Callback data))
    then MessageRequest.set_Callback msgReq
           (types.ValueString (MessageResource.Callback data))
    else msgReq
  else msgReq.

(** What [Create] stores after a send that returned the body [j]. *)
Definition stored (data : MessageResource.MessageResourceModel) (j : Json)
  : MessageResource.MessageResourceModel :=
  MessageResource.set_Receipt_RequestID data
    (types.StringValue (json_receipt j)) (types.StringValue (json_request j)).

(** ** Concrete servers, plans and rows for the examples *)

(** A body with the given status, request identifier, receipt, errors and
    member rows, and the zero value under every other key. *)
Definition apiJson (status : Z) (request receipt : string)
  (errors : list string) (users : list GroupMember.t) : Json :=
  {| json_status := status; json_request := request; json_errors := errors;
     json_receipt := receipt; json_acknowledged := 0;
     json_acknowledged_at := 0; json_acknowledged_by := "";
     json_acknowledged_by_device := ""; json_last_delivered_at := 0;
     json_expired := 0; json_expires_at := 0; json_called_back := 0;
     json_called_back_at := 0; json_sounds := ∅; json_group := 0;
     json_devices := []; json_licenses := []; json_name := "";
     json_users := users |}.

(** A server that answers the [i]-th request it receives with the [i]-th
    outcome of a script, and does not answer once the script is over. *)
Definition scripted (script : list RoundTrip) : Server :=
  fun log _ => default (NotSent "connection refused") (script !! length log).

Definition testClient (script : list RoundTrip) : pushover.Client :=
  pushover.NewClientWithBase "provider_token" "https://api.test/1"
    (scripted script).

Definition messagePlan (priority retry expire : types.Int64)
  : MessageResource.MessageResourceModel :=
  {| MessageResource.UserKey := types.Known "U1";
     MessageResource.Message := types.Known "disk full";
     MessageResource.APIToken := types.Null;
     MessageResource.Title := types.Null;
     MessageResource.URL := types.Null;
     MessageResource.URLTitle := types.Null;
     MessageResource.Priority := priority;
     MessageResource.Sound := types.Null;
     MessageResource.Device := types.Null;
     MessageResource.Timestamp := types.Null;
     MessageResource.HTML := types.Null;
     MessageResource.Monospace := types.Null;
     MessageResource.TTL := types.Null;
     MessageResource.Retry := retry;
     MessageResource.Expire := expire;
     MessageResource.Callback := types.Null;
     MessageResource.Receipt := types.Unknown;
     MessageResource.RequestID := types.Unknown |}.

Definition messageResource (script : list RoundTrip)
  : MessageResource.MessageResource :=
  {| MessageResource.client := testClient script |}.

(** ** The group-user resource *)

(** What [Read]'s loop does to [data] at the row it stops at. *)
Definition observe (data : GroupUserResource.GroupUserResourceModel)
  (member : GroupMember.t) : GroupUserResource.GroupUserResourceModel :=
  let data :=
    GroupUserResource.set_Disabled data
      (types.BoolValue (GroupMember.Disabled member)) in
  if decide (GroupMember.Memo member ≠ "")
  then GroupUserResource.set_Memo data
         (types.StringValue (GroupMember.Memo member))
  else data.

(** A membership of the member [U1] in the group [G1]. *)
Definition membership (device : types.String) (memo : types.String)
  (disabled : types.Bool) (id : types.String)
  : GroupUserResource.GroupUserResourceModel :=
  {| GroupUserResource.GroupKey := types.Known "G1";
     GroupUserResource.UserKey := types.Known "U1";
     GroupUserResource.Device := device;
     GroupUserResource.Memo := memo;
     GroupUserResource.Disabled := disabled;
     GroupUserResource.ID := id |}.

Definition groupUserResource (script : list RoundTrip)
  : GroupUserResource.GroupUserResource :=
  {| GroupUserResource.client := testClient script |}.

Definition row (user device memo : string) (disabled : bool) : GroupMember.t :=
  {| GroupMember.User := user; GroupMember.Device := device;
     GroupMember.Memo := memo; GroupMember.Disabled := disabled |}.

(** The identifier that [Create] computes. *)
Definition computedID (data : GroupUserResource.GroupUserResourceModel)
  : string :=
  let groupKey := types.ValueString (GroupUserResource.GroupKey data) in
  let userKey := types.ValueString (GroupUserResource.UserKey data) in
  let device := types.ValueString (GroupUserResource.Device data) in
  let id := groupKey +:+ "/" +:+ userKey in
  if decide (device ≠ "") then id +:+ "/" +:+ device else id.

(** [Create]'s test for the second call. *)
Definition wantsDisabled (data : GroupUserResource.GroupUserResourceModel)
  : bool :=
  negb (types.IsNull (GroupUserResource.Disabled data))
  && types.ValueBool (GroupUserResource.Disabled data).

(** The requests that [Create] and [Update] make for a planned model. *)
Definition addRequestOf (r : GroupUserResource.GroupUserResource)
  (data : GroupUserResource.GroupUserResourceModel) : Request :=
  addUserRequest (GroupUserResource.client r)
    (types.ValueString (GroupUserResource.GroupKey data))
    (types.ValueString (GroupUserResource.UserKey data))
    (types.ValueString (GroupUserResource.Device data))
    (types.ValueString (GroupUserResource.Memo data)).

Definition disableRequestOf (r : GroupUserResource.GroupUserResource)
  (data : GroupUserResource.GroupUserResourceModel) : Request :=
  disableUserRequest (GroupUserResource.client r)
    (types.ValueString (GroupUserResource.GroupKey data))
    (types.ValueString (GroupUserResource.UserKey data))
    (types.ValueString (GroupUserResource.Device data)).

Definition enableRequestOf (r : GroupUserResource.GroupUserResource)
  (data : GroupUserResource.GroupUserResourceModel) : Request :=
  enableUserRequest (GroupUserResource.client r)
    (types.ValueString (GroupUserResource.GroupKey data))
    (types.ValueString (GroupUserResource.UserKey data))
    (types.ValueString (GroupUserResource.Device data)).

(** The planned model differs from the stored one in the disabled flag and
    in nothing else. *)
Definition differsOnlyInDisabled
  (plan state : GroupUserResource.GroupUserResourceModel) : Prop :=
  GroupUserResource.GroupKey plan = GroupUserResource.GroupKey state
  ∧ GroupUserResource.UserKey plan = GroupUserResource.UserKey state
  ∧ GroupUserResource.Device plan = GroupUserResource.Device state
  ∧ GroupUserResource.Memo plan = GroupUserResource.Memo state
  ∧ GroupUserResource.ID plan = GroupUserResource.ID state
  ∧ GroupUserResource.Disabled plan ≠ GroupUserResource.Disabled state.

(** The outcomes of the requests [reqs], made in this order from the log
    [log]. *)
Fixpoint answers (srv : Server) (log reqs : list Request) : list RoundTrip :=
  match reqs with
  | [] => []
  | q :: rest => srv log q :: answers srv (log ++ [q]) rest
  end.

(** A handler run that started from the response [resp] and the log [log]
    and ended in [out] is atomic when a failed call, if there is one, is
    the last call made and leaves the state of the response as it was. *)
Definition atomic (srv : Server) (resp : GroupUserResource.Response)
  (log : list Request) (out : GroupUserResource.Response * list Request)
  : Prop :=
  ∃ reqs, out.2 = log ++ reqs
          ∧ ∀ i rt, answers srv log reqs !! i = Some rt →
                    succeeded rt = false →
                    resource.State out.1 = resource.State resp
                    ∧ length reqs = S i.

(** The computation [m], run from [log], makes exactly one request, and
    that request satisfies [P]. *)
Definition sends {A} (m : Remote A) (log : list Request)
  (P : Request → Prop) : Prop :=
  ∃ q, (m log).2 = log ++ [q] ∧ P q.

(** The token in the form of a request, and the token in its query
    string. *)
Definition formToken (q : Request) : option string := Form q !! "token".

(** ** Notions of the further properties *)

(** The keys that a message form can hold. *)
Definition messageKeys : gset string :=
  {[ "token"; "user"; "message"; "title"; "url"; "url_title"; "priority";
     "sound"; "device"; "timestamp"; "html"; "monospace"; "ttl"; "retry";
     "expire"; "callback" ]}.

(** A string without the separator of identifiers. *)
Definition slashFree (s : string) : Prop :=
  "/"%char ∉ String.list_ascii_of_string s.

(** What the form of a message holds for an optional attribute of the
    plan: nothing for a null, unknown, empty, zero or false attribute. *)
Definition sentString (v : types.String) : option string :=
  match v with
  | types.Known t => if decide (t = "") then None else Some t
  | _ => None
  end.

Definition sentNumber (v : types.Int64) : option string :=
  match v with
  | types.Known n => if decide (n = 0) then None else Some (Itoa n)
  | _ => None
  end.

Definition sentFlag (v : types.Bool) : option string :=
  match v with
  | types.Known true => Some "1"
  | _ => None
  end.

(** [Create] of the message resource gets as far as the send. *)
Definition dispatched (plan : MessageResource.MessageResourceModel) : Prop :=
  ¬ (MessageResource.Priority plan = types.Known 2
     ∧ (MessageResource.Retry plan = types.Null
        ∨ MessageResource.Expire plan = types.Null)).

(** The response that the framework hands to the provider's [Configure]. *)
Definition newConfigureResponse : PushoverProvider.ConfigureResponse :=
  {| PushoverProvider.Diagnostics := [];
     PushoverProvider.DataSourceData := None;
     PushoverProvider.ResourceData := None |}.

(** The token that the provider settles on: the attribute when it is
    known, the environment variable otherwise. *)
Definition resolvedToken (getenv : string -> string)
  (config : PushoverProvider.PushoverProviderModel) : string :=
  match PushoverProvider.APIToken config with
  | types.Known t => t
  | _ => getenv "PUSHOVER_API_TOKEN"
  end.

(** A sound as a pair of its key and its name. *)
Definition entryOf (s : Sound.t) : string * string :=
  (Sound.Key s, Sound.Name s).

(** A configuration of the validate-user data source for the user [U1]. *)
Definition validateConfig (device apiToken : types.String)
  : ValidateUserDataSource.ValidateUserDataSourceModel :=
  {| ValidateUserDataSource.UserKey := types.Known "U1";
     ValidateUserDataSource.Device := device;
     ValidateUserDataSource.APIToken := apiToken;
     ValidateUserDataSource.IsGroup := types.Unknown;
     ValidateUserDataSource.Devices := types.Unknown;
     ValidateUserDataSource.Licenses := types.Unknown;
     ValidateUserDataSource.ID := types.Unknown |}.

(** The sounds that [GetSounds] returns for a decoded map. *)
Definition soundsOf (m : gmap string string) : list Sound.t :=
  (fun kv => {| Sound.Key := kv.1; Sound.Name := kv.2 |}) <$> map_to_list m.

(** A successful body that lists the given sounds. *)
Definition soundsJson (sounds : gmap string string) : Json :=
  {| json_status := 1; json_request := "req-1"; json_errors := [];
     json_receipt := ""; json_acknowledged := 0;
     json_acknowledged_at := 0; json_acknowledged_by := "";
     json_acknowledged_by_device := ""; json_last_delivered_at := 0;
     json_expired := 0; json_expires_at := 0; json_called_back := 0;
     json_called_back_at := 0; json_sounds := sounds; json_group := 0;
     json_devices := []; json_licenses := []; json_name := "";
     json_users := [] |}.

(** * Properties *)

(** ** Strings *)

Lemma append_assoc (a b c : string) : (a +:+ b) +:+ c = a +:+ (b +:+ c).
Proof.
  induction a as [|x a IH]; [reflexivity|].
  change (String x ((a +:+ b) +:+ c) = String x (a +:+ (b +:+ c))).
  by rewrite IH.
Qed.

Lemma list_ascii_of_string_app (a b : string) :
  String.list_ascii_of_string (a +:+ b)
  = String.list_ascii_of_string a ++ String.list_ascii_of_string b.
Proof.
  induction a as [|x a IH]; [reflexivity|].
  change (x :: String.list_ascii_of_string (a +:+ b)
          = x :: (String.list_ascii_of_string a ++ String.list_ascii_of_string b)).
  by rewrite IH.
Qed.

(** Two strings that end in suffixes which differ at some position from
    the end are different, whatever comes before the suffixes. *)
Lemma append_suffix_neq (a b s t : string) :
  (forall x y : list ascii,
      rev (String.list_ascii_of_string s) ++ x ≠ rev (String.list_ascii_of_string t) ++ y) ->
  a +:+ s ≠ b +:+ t.
Proof.
  intros Hst Heq.
  apply (f_equal String.list_ascii_of_string) in Heq.
  rewrite !list_ascii_of_string_app in Heq.
  apply (f_equal (@rev ascii)) in Heq.
  rewrite !rev_app_distr in Heq.
  exact (Hst _ _ Heq).
Qed.

(** ** Diagnostics *)

Lemma elem_of_AddError (ds : diag.Diagnostics) (summary detail : string)
  (d : diag.Diagnostic) :
  d ∈ diag.AddError ds summary detail
  ↔ d ∈ ds ∨ d = diag.NewErrorDiagnostic summary detail.
Proof.
  unfold diag.AddError; simpl.
  destruct (decide (diag.NewErrorDiagnostic summary detail ∈ ds)) as [Hin|Hin].
  - split; [by left | intros [H| ->]; done].
  - rewrite elem_of_app, list_elem_of_singleton. reflexivity.
Qed.

Lemma AddError_nil (summary detail : string) :
  diag.AddError [] summary detail = [diag.NewErrorDiagnostic summary detail].
Proof. reflexivity. Qed.

Lemma HasError_AddError (ds : diag.Diagnostics) (summary detail : string) :
  diag.HasError (diag.AddError ds summary detail) = true.
Proof.
  unfold diag.HasError. apply existsb_exists.
  exists (diag.NewErrorDiagnostic summary detail). split; [|reflexivity].
  apply list_elem_of_In, elem_of_AddError. by right.
Qed.

(** ** The client: one request per call *)

Lemma checked_ok (rt : RoundTrip) (j : Json) :
  checked rt = Ok j ↔ rt = Body j ∧ json_status j = 1.
Proof.
  destruct rt as [e|e|e|e|j']; simpl; try (split; [discriminate | intros [? _]; discriminate]).
  destruct (decide (json_status j' ≠ 1)) as [Hne|Heq].
  - split; [discriminate | intros [[= ->] ?]; contradiction].
  - apply dec_stable in Heq. split.
    + intros [= ->]. done.
    + intros [[= ->] _]. done.
Qed.

Lemma is_ok_checked (rt : RoundTrip) : is_ok (checked rt) = succeeded rt.
Proof.
  destruct rt as [e|e|e|e|j]; simpl; try reflexivity.
  destruct (decide (json_status j ≠ 1)) as [Hne|Heq]; simpl.
  - symmetry. by apply bool_decide_eq_false.
  - symmetry. apply bool_decide_eq_true. by apply dec_stable in Heq.
Qed.

Lemma is_ok_mapResult {A B} (f : A -> B) (r : result A) :
  is_ok (mapResult f r) = is_ok r.
Proof. by destruct r. Qed.

Lemma doPost_eq c path params log :
  pushover.doPost c path params log
  = (checked (pushover.httpClient c log (postRequest c path params)),
     log ++ [postRequest c path params]).
Proof.
  unfold pushover.doPost, bind, roundTrip, ret, postRequest.
  destruct (pushover.httpClient c log _) as [e|e|e|e|j]; simpl; try reflexivity.
  by destruct (decide (json_status j ≠ 1)).
Qed.

Lemma doGet_eq c path log :
  pushover.doGet c path log
  = (checked (pushover.httpClient c log (getRequest c path)),
     log ++ [getRequest c path]).
Proof.
  unfold pushover.doGet, bind, roundTrip, ret, getRequest.
  destruct (pushover.httpClient c log _) as [e|e|e|e|j]; simpl; try reflexivity.
  by destruct (decide (json_status j ≠ 1)).
Qed.

Ltac client_call :=
  unfold bind, ret; rewrite ?doPost_eq, ?doGet_eq;
  match goal with
  | |- context [checked ?rt] => destruct (checked rt); reflexivity
  end.

Lemma SendMessage_eq c req log :
  pushover.SendMessage c req log
  = (mapResult pushover.toMessageResponse
       (checked (pushover.httpClient c log (sendMessageRequest c req))),
     log ++ [sendMessageRequest c req]).
Proof. unfold pushover.SendMessage, sendMessageRequest, settleToken. client_call. Qed.

Lemma AddGroupUser_eq c groupKey user device memo log :
  pushover.AddGroupUser c groupKey user device memo log
  = (mapResult pushover.toAPIResponse
       (checked (pushover.httpClient c log
                   (addUserRequest c groupKey user device memo))),
     log ++ [addUserRequest c groupKey user device memo]).
Proof. unfold pushover.AddGroupUser, addUserRequest, memberParams. client_call. Qed.

Lemma RemoveGroupUser_eq c groupKey user device log :
  pushover.RemoveGroupUser c groupKey user device log
  = (mapResult pushover.toAPIResponse
       (checked (pushover.httpClient c log
                   (removeUserRequest c groupKey user device))),
     log ++ [removeUserRequest c groupKey user device]).
Proof. unfold pushover.RemoveGroupUser, removeUserRequest, memberParams. client_call. Qed.

Lemma EnableGroupUser_eq c groupKey user device log :
  pushover.EnableGroupUser c groupKey user device log
  = (mapResult pushover.toAPIResponse
       (checked (pushover.httpClient c log
                   (enableUserRequest c groupKey user device))),
     log ++ [enableUserRequest c groupKey user device]).
Proof. unfold pushover.EnableGroupUser, enableUserRequest, memberParams. client_call. Qed.

Lemma DisableGroupUser_eq c groupKey user device log :
  pushover.DisableGroupUser c groupKey user device log
  = (mapResult pushover.toAPIResponse
       (checked (pushover.httpClient c log
                   (disableUserRequest c groupKey user device))),
     log ++ [disableUserRequest c groupKey user device]).
Proof. unfold pushover.DisableGroupUser, disableUserRequest, memberParams. client_call. Qed.

Lemma GetGroup_eq c groupKey log :
  pushover.GetGroup c groupKey log
  = (mapResult pushover.toGroupResponse
       (checked (pushover.httpClient c log (getGroupRequest c groupKey))),
     log ++ [getGroupRequest c groupKey]).
Proof. unfold pushover.GetGroup, getGroupRequest. client_call. Qed.

(** The paths of the add, enable and disable calls never coincide. *)
Lemma addUser_neq_disableUser c g u d m g' u' d' :
  addUserRequest c g u d m ≠ disableUserRequest c g' u' d'.
Proof.
  unfold addUserRequest, disableUserRequest, postRequest. intros [= Hurl _].
  apply String.app_inj in Hurl. apply String.app_inj in Hurl. revert Hurl.
  apply append_suffix_neq. intros x y. simpl. discriminate.
Qed.

Lemma addUser_neq_enableUser c g u d m g' u' d' :
  addUserRequest c g u d m ≠ enableUserRequest c g' u' d'.
Proof.
  unfold addUserRequest, enableUserRequest, postRequest. intros [= Hurl _].
  apply String.app_inj in Hurl. apply String.app_inj in Hurl. revert Hurl.
  apply append_suffix_neq. intros x y. simpl. discriminate.
Qed.

Lemma enableUser_neq_disableUser c g u d g' u' d' :
  enableUserRequest c g u d ≠ disableUserRequest c g' u' d'.
Proof.
  unfold enableUserRequest, disableUserRequest, postRequest. intros [= Hurl _].
  apply String.app_inj in Hurl. apply String.app_inj in Hurl. revert Hurl.
  apply append_suffix_neq. intros x y. simpl. discriminate.
Qed.

(** ** The message resource *)

Lemma buildRequest_priority (data : MessageResource.MessageResourceModel) :
  MessageRequest.Priority (MessageResource.buildRequest data) = 2
  ↔ MessageResource.Priority data = types.Known 2.
Proof.
  unfold MessageResource.buildRequest, int; simpl.
  destruct (MessageResource.Priority data) as [| |n]; simpl.
  - split; discriminate.
  - split; discriminate.
  - split; [intros ->; reflexivity | intros [= ->]; reflexivity].
Qed.

Lemma IsNull_true {A} (x : types.Value A) :
  types.IsNull x = true ↔ x = types.Null.
Proof. destruct x; simpl; split; congruence. Qed.

Lemma send_eq r data msgReq resp log :
  MessageResource.send r data msgReq resp log
  = (match checked (pushover.httpClient (MessageResource.client r) log
                      (sendMessageRequest (MessageResource.client r) msgReq)) with
     | Err err => resource.AddError resp "Failed to send Pushover message" err
     | Ok j => resource.StateSet resp (stored data j)
     end,
     log ++ [sendMessageRequest (MessageResource.client r) msgReq]).
Proof.
  unfold MessageResource.send, bind. rewrite SendMessage_eq.
  by destruct (checked _).
Qed.

(** The two ways through [Create] on a response without errors. *)
Lemma Create_rejected r plan resp log :
  diag.HasError (resource.Diagnostics resp) = false ->
  MessageResource.Priority plan = types.Known 2 ->
  MessageResource.Retry plan = types.Null
  ∨ MessageResource.Expire plan = types.Null ->
  MessageResource.Create r plan resp log
  = (resource.AddError resp (diag.Summary missingEmergencyFields)
       (diag.Detail missingEmergencyFields), log).
Proof.
  intros Hok Hprio Hnull. unfold MessageResource.Create. rewrite Hok.
  apply buildRequest_priority in Hprio.
  destruct (decide _) as [_|Hne]; [|contradiction].
  assert (types.IsNull (MessageResource.Retry plan)
          || types.IsNull (MessageResource.Expire plan) = true) as ->.
  { apply orb_true_iff. destruct Hnull as [H|H]; [left|right];
      by apply IsNull_true. }
  reflexivity.
Qed.

Lemma Create_dispatched r plan resp log :
  diag.HasError (resource.Diagnostics resp) = false ->
  ¬ (MessageResource.Priority plan = types.Known 2
     ∧ (MessageResource.Retry plan = types.Null
        ∨ MessageResource.Expire plan = types.Null)) ->
  MessageResource.Create r plan resp log
  = MessageResource.send r plan (requestSent plan) resp log.
Proof.
  intros Hok Hnot. unfold MessageResource.Create, requestSent. rewrite Hok.
  destruct (decide _) as [Hp|Hp]; [|reflexivity].
  destruct (types.IsNull (MessageResource.Retry plan)
            || types.IsNull (MessageResource.Expire plan)) eqn:Hnull.
  - exfalso. apply Hnot. split; [by apply buildRequest_priority|].
    apply orb_true_iff in Hnull.
    destruct Hnull as [H|H]; [left|right]; by apply IsNull_true.
  - by destruct (negb _).
Qed.

(** C1. For every planned message, [Create] reports the
    missing-emergency-fields error exactly when the priority is 2 and
    retry or expire is null; when it reports it, no request has been made
    and nothing is stored; and with a priority other than 2 the error is
    never reported, whatever retry and expire are. *)
Theorem C1_missing_emergency_fields
  (r : MessageResource.MessageResource)
  (plan : MessageResource.MessageResourceModel) (log : list Request) :
  let out := MessageResource.Create r plan resource.newCreateResponse log in
  (missingEmergencyFields ∈ resource.Diagnostics out.1
   ↔ MessageResource.Priority plan = types.Known 2
     ∧ (MessageResource.Retry plan = types.Null
        ∨ MessageResource.Expire plan = types.Null))
  ∧ (missingEmergencyFields ∈ resource.Diagnostics out.1 →
     out.2 = log ∧ resource.State out.1 = None)
  ∧ (MessageResource.Priority plan ≠ types.Known 2 →
     missingEmergencyFields ∉ resource.Diagnostics out.1).
Proof.
  intros out.
  assert (Hsent :
    ¬ (MessageResource.Priority plan = types.Known 2
       ∧ (MessageResource.Retry plan = types.Null
          ∨ MessageResource.Expire plan = types.Null)) →
    missingEmergencyFields ∉ resource.Diagnostics out.1).
  { intros Hnot. subst out.
    rewrite (Create_dispatched r plan resource.newCreateResponse log eq_refl Hnot),
      send_eq; simpl.
    destruct (checked _); simpl.
    - apply not_elem_of_nil.
    - rewrite AddError_nil. intros Hin%list_elem_of_singleton. discriminate. }
  assert (Hrej :
    MessageResource.Priority plan = types.Known 2
    ∧ (MessageResource.Retry plan = types.Null
       ∨ MessageResource.Expire plan = types.Null) →
    out = (resource.AddError resource.newCreateResponse
             (diag.Summary missingEmergencyFields)
             (diag.Detail missingEmergencyFields), log)).
  { intros [Hp Hn]. subst out. by apply Create_rejected. }
  destruct (decide (MessageResource.Priority plan = types.Known 2
                    ∧ (MessageResource.Retry plan = types.Null
                       ∨ MessageResource.Expire plan = types.Null)))
    as [Hcase|Hcase].
  - rewrite (Hrej Hcase); simpl. split; [|split].
    + split; [done|]. intros _. apply list_elem_of_singleton. reflexivity.
    + done.
    + intros Hne. by destruct Hcase.
  - specialize (Hsent Hcase). split; [|split].
    + split; [done|]. intros H. contradiction.
    + done.
    + done.
Qed.

(** An emergency message without retry is rejected before any request,
    even against a server that would accept it. *)
Lemma C1_missing_emergency_fields_witness :
  let out :=
    run (MessageResource.Create
           (messageResource [Body (apiJson 1 "req-1" "rcpt-1" [] [])])
           (messagePlan (types.Known 2) types.Null (types.Known 3600))
           resource.newCreateResponse) in
  out.2 = [] ∧ resource.State out.1 = None.
Proof.
  apply (proj1 (proj2 (C1_missing_emergency_fields
                         (messageResource [Body (apiJson 1 "req-1" "rcpt-1" [] [])])
                         (messagePlan (types.Known 2) types.Null (types.Known 3600))
                         []))).
  apply (proj2 (proj1 (C1_missing_emergency_fields
                         (messageResource [Body (apiJson 1 "req-1" "rcpt-1" [] [])])
                         (messagePlan (types.Known 2) types.Null (types.Known 3600))
                         []))).
  split; [reflexivity | left; reflexivity].
Defined.

(** C8, as stated, fails: at priority 0 the receipt that the remote
    returns is stored all the same. The plan holds an unknown receipt, the
    remote answers with receipt [rcpt-1], and the stored receipt is
    [rcpt-1]. *)
Lemma C8_receipt_stored_at_priority_0 :
  let plan := messagePlan (types.Known 0) types.Null types.Null in
  let out :=
    run (MessageResource.Create
           (messageResource [Body (apiJson 1 "req-1" "rcpt-1" [] [])])
           plan resource.newCreateResponse) in
  MessageResource.Priority plan ≠ types.Known 2
  ∧ MessageResource.Receipt plan = types.Unknown
  ∧ (MessageResource.Receipt <$> resource.State out.1)
    = Some (types.StringValue "rcpt-1")
  ∧ (MessageResource.RequestID <$> resource.State out.1)
    = Some (types.StringValue "req-1").
Proof. split; [discriminate | repeat split; vm_compute; reflexivity]. Qed.

(** C8, amended. Whenever [Create] reaches the send and the send succeeds,
    the response holds no diagnostic and the stored state is the plan with
    the returned request identifier and the returned receipt, at every
    priority; no further request is made. *)
Theorem C8_request_id_and_receipt_stored
  (r : MessageResource.MessageResource)
  (plan : MessageResource.MessageResourceModel) (log log' : list Request)
  (result : MessageResponse.t) :
  ¬ (MessageResource.Priority plan = types.Known 2
     ∧ (MessageResource.Retry plan = types.Null
        ∨ MessageResource.Expire plan = types.Null)) →
  pushover.SendMessage (MessageResource.client r) (requestSent plan) log
  = (Ok result, log') →
  MessageResource.Create r plan resource.newCreateResponse log
  = ({| resource.Diagnostics := [];
        resource.State :=
          Some (MessageResource.set_Receipt_RequestID plan
                  (types.StringValue (MessageResponse.Receipt result))
                  (types.StringValue
                     (APIResponse.Request (MessageResponse.API result)))) |},
     log').
Proof.
  intros Hnot Hsend.
  rewrite (Create_dispatched r plan resource.newCreateResponse log eq_refl Hnot).
  unfold MessageResource.send, bind. rewrite Hsend. reflexivity.
Qed.

Lemma C8_request_id_and_receipt_stored_witness :
  MessageResource.Create
    (messageResource [Body (apiJson 1 "req-7" "rcpt-7" [] [])])
    (messagePlan (types.Known 2) (types.Known 60) (types.Known 3600))
    resource.newCreateResponse []
  = ({| resource.Diagnostics := [];
        resource.State :=
          Some (MessageResource.set_Receipt_RequestID
                  (messagePlan (types.Known 2) (types.Known 60) (types.Known 3600))
                  (types.StringValue "rcpt-7") (types.StringValue "req-7")) |},
     [sendMessageRequest (testClient [Body (apiJson 1 "req-7" "rcpt-7" [] [])])
        (requestSent
           (messagePlan (types.Known 2) (types.Known 60) (types.Known 3600)))]).
Proof.
  apply (C8_request_id_and_receipt_stored
           (messageResource [Body (apiJson 1 "req-7" "rcpt-7" [] [])])
           (messagePlan (types.Known 2) (types.Known 60) (types.Known 3600))
           [] _ (pushover.toMessageResponse (apiJson 1 "req-7" "rcpt-7" [] []))).
  - intros [_ [H|H]]; discriminate.
  - rewrite SendMessage_eq. reflexivity.
Defined.

(** ** The group-user resource: reading *)

Lemma matches_true (userKey device : string) (member : GroupMember.t) :
  GroupUserResource.matches userKey device member = true
  ↔ GroupMember.User member = userKey
    ∧ (device = "" ∨ GroupMember.Device member = device).
Proof.
  unfold GroupUserResource.matches.
  rewrite andb_true_iff, orb_true_iff, !bool_decide_eq_true. reflexivity.
Qed.

Lemma matches_false (userKey device : string) (member : GroupMember.t) :
  GroupUserResource.matches userKey device member = false
  ↔ ¬ (GroupMember.User member = userKey
       ∧ (device = "" ∨ GroupMember.Device member = device)).
Proof.
  rewrite <- matches_true.
  destruct (GroupUserResource.matches _ _ _); split; done.
Qed.

Lemma findMember_none users userKey device data :
  (∀ m, m ∈ users → GroupUserResource.matches userKey device m = false) →
  GroupUserResource.findMember users userKey device data = (false, data).
Proof.
  induction users as [|m users IH]; intros Hall; simpl; [reflexivity|].
  rewrite (Hall m) by apply list_elem_of_here.
  apply IH. intros x Hx. apply Hall. by apply list_elem_of_further.
Qed.

Lemma findMember_first pre row post userKey device data :
  (∀ m, m ∈ pre → GroupUserResource.matches userKey device m = false) →
  GroupUserResource.matches userKey device row = true →
  GroupUserResource.findMember (pre ++ row :: post) userKey device data
  = (true, observe data row).
Proof.
  intros Hpre Hrow. induction pre as [|m pre IH]; simpl.
  - rewrite Hrow. reflexivity.
  - rewrite (Hpre m) by apply list_elem_of_here.
    apply IH. intros x Hx. apply Hpre. by apply list_elem_of_further.
Qed.

Lemma Read_eq r state resp log :
  diag.HasError (resource.Diagnostics resp) = false →
  GroupUserResource.Read r state resp log
  = (match checked (pushover.httpClient (GroupUserResource.client r) log
                      (getGroupRequest (GroupUserResource.client r)
                         (types.ValueString (GroupUserResource.GroupKey state)))) with
     | Err err => resource.AddError resp "Failed to read group" err
     | Ok j =>
         let '(found, data) :=
           GroupUserResource.findMember (json_users j)
             (types.ValueString (GroupUserResource.UserKey state))
             (types.ValueString (GroupUserResource.Device state)) state in
         if negb found then resource.RemoveResource resp
         else resource.StateSet resp data
     end,
     log ++ [getGroupRequest (GroupUserResource.client r)
               (types.ValueString (GroupUserResource.GroupKey state))]).
Proof.
  intros Hok. unfold GroupUserResource.Read, bind. rewrite Hok, GetGroup_eq.
  destruct (checked _) as [j|e]; simpl; [|reflexivity].
  destruct (GroupUserResource.findMember _ _ _ _) as [found data].
  by destruct found.
Qed.

(** C2, as stated, fails: with no device stored, a row of the same member
    that is scoped to the device [iphone] passes the row test, and [Read]
    takes its disabled flag and memo as the entity's. *)
Lemma C2_absent_device_accepts_scoped_row :
  let state :=
    membership types.Null (types.Known "lead") (types.Known false)
      (types.Known "G1/U1") in
  let scoped := row "U1" "iphone" "phone only" true in
  let out :=
    run (GroupUserResource.Read
           (groupUserResource [Body (apiJson 1 "req-1" "" [] [scoped])])
           state (resource.newResponse state)) in
  types.ValueString (GroupUserResource.Device state) = ""
  ∧ GroupMember.Device scoped ≠ ""
  ∧ GroupUserResource.matches "U1" "" scoped = true
  ∧ resource.State out.1
    = Some (membership types.Null (types.Known "phone only")
              (types.Known true) (types.Known "G1/U1")).
Proof.
  split; [reflexivity|]. split; [discriminate|].
  split; vm_compute; reflexivity.
Qed.

(** C2, amended. [Read]'s loop accepts the first row of the listing whose
    member key equals the stored member key and whose device passes the
    test: the stored device is empty (then the row's device is not looked
    at) or the row's device is identical. It accepts no row when there is
    none. *)
Theorem C2_accepted_row (users : list GroupMember.t) (userKey device : string)
  (data : GroupUserResource.GroupUserResourceModel) :
  GroupUserResource.findMember users userKey device data
  = match
      list_find (λ m, GroupMember.User m = userKey
                      ∧ (device = "" ∨ GroupMember.Device m = device)) users
    with
    | Some (_, accepted) => (true, observe data accepted)
    | None => (false, data)
    end.
Proof.
  induction users as [|m users IH]; [reflexivity|].
  cbn [GroupUserResource.findMember list_find].
  destruct (decide (GroupMember.User m = userKey
                    ∧ (device = "" ∨ GroupMember.Device m = device)))
    as [Hyes|Hno].
  - rewrite (proj2 (matches_true userKey device m) Hyes). reflexivity.
  - rewrite (proj2 (matches_false userKey device m) Hno), IH.
    by destruct (list_find _ users) as [[i x]|].
Qed.

(** C3, as stated, fails on the device part of the natural key: the
    stored membership has no device, the listing holds only a row of the
    member scoped to [iphone], so no row carries the entity's key
    (member, no device); yet [Read] keeps the entity and stores that row's
    values. *)
Lemma C3_scoped_row_keeps_entity :
  let state :=
    membership types.Null types.Null (types.Known false) (types.Known "G1/U1") in
  let listing := [row "U1" "iphone" "" true] in
  let out :=
    run (GroupUserResource.Read
           (groupUserResource [Body (apiJson 1 "req-1" "" [] listing)])
           state (resource.newResponse state)) in
  (∀ m, m ∈ listing →
        ¬ (GroupMember.User m
           = types.ValueString (GroupUserResource.UserKey state)
           ∧ GroupMember.Device m
             = types.ValueString (GroupUserResource.Device state)))
  ∧ resource.State out.1 ≠ None
  ∧ resource.State out.1
    = Some (membership types.Null types.Null (types.Known true)
              (types.Known "G1/U1")).
Proof.
  split; [|split].
  - intros m Hm%list_elem_of_singleton [_ Hdev]. subst m. discriminate.
  - vm_compute. discriminate.
  - vm_compute. reflexivity.
Qed.

(** C3, amended. [Read] makes one request, the listing. When the listing
    succeeds and no row passes the row test (same member key, and the
    stored device empty or the row's device identical), the state is
    removed and no diagnostic is reported. [Read] reports an error exactly
    when the listing fails. *)
Theorem C3_absent_is_removed_without_error
  (r : GroupUserResource.GroupUserResource)
  (state : GroupUserResource.GroupUserResourceModel) (log : list Request) :
  let c := GroupUserResource.client r in
  let userKey := types.ValueString (GroupUserResource.UserKey state) in
  let device := types.ValueString (GroupUserResource.Device state) in
  let listing :=
    pushover.GetGroup c
      (types.ValueString (GroupUserResource.GroupKey state)) log in
  let out := GroupUserResource.Read r state (resource.newResponse state) log in
  out.2 = listing.2
  ∧ (∀ groupResp,
       listing.1 = Ok groupResp →
       (∀ m, m ∈ GroupResponse.Users groupResp →
             ¬ (GroupMember.User m = userKey
                ∧ (device = "" ∨ GroupMember.Device m = device))) →
       resource.State out.1 = None ∧ resource.Diagnostics out.1 = [])
  ∧ (diag.HasError (resource.Diagnostics out.1) = true
     ↔ ∃ err, listing.1 = Err err).
Proof.
  intros c userKey device listing out. subst listing out.
  rewrite (Read_eq r state (resource.newResponse state) log eq_refl).
  rewrite GetGroup_eq. fold c. simpl.
  destruct (checked _) as [j|e]; simpl.
  - split; [reflexivity|]. split.
    + intros groupResp [= <-] Hnone. simpl in Hnone.
      rewrite findMember_none; [done|].
      intros m Hm. apply matches_false. by apply Hnone.
    + destruct (GroupUserResource.findMember _ _ _ _) as [[] data]; simpl;
        (split; [discriminate | intros [err Herr]; discriminate]).
  - split; [reflexivity|]. split; [discriminate|].
    split; [intros _; by exists e | intros _; reflexivity].
Qed.

Lemma C3_absent_is_removed_without_error_witness :
  let state :=
    membership (types.Known "iphone") types.Null (types.Known false)
      (types.Known "G1/U1/iphone") in
  let out :=
    run (GroupUserResource.Read
           (groupUserResource
              [Body (apiJson 1 "req-1" "" [] [row "U1" "ipad" "" false;
                                             row "U2" "iphone" "" false])])
           state (resource.newResponse state)) in
  resource.State out.1 = None ∧ resource.Diagnostics out.1 = [].
Proof.
  intros state out.
  apply (proj1 (proj2 (C3_absent_is_removed_without_error
                         (groupUserResource
                            [Body (apiJson 1 "req-1" "" []
                                     [row "U1" "ipad" "" false;
                                      row "U2" "iphone" "" false])])
                         state []))
           (pushover.toGroupResponse
              (apiJson 1 "req-1" "" [] [row "U1" "ipad" "" false;
                                         row "U2" "iphone" "" false]))).
  - rewrite GetGroup_eq. reflexivity.
  - intros m Hm [Huser [Hdev|Hdev]]; [discriminate|].
    apply elem_of_cons in Hm as [->|Hm]; [discriminate|].
    apply list_elem_of_singleton in Hm as ->. discriminate.
Defined.

(** C7. When [Read] finds a row (the first that passes the row test), the
    stored disabled flag is the row's, the stored memo is the row's when
    that is not empty and is left as it was otherwise, and the other fields
    are left as they were. *)
Theorem C7_found_row_is_observed
  (r : GroupUserResource.GroupUserResource)
  (state : GroupUserResource.GroupUserResourceModel) (log : list Request)
  (groupResp : GroupResponse.t) (pre post : list GroupMember.t)
  (found : GroupMember.t) :
  let c := GroupUserResource.client r in
  let userKey := types.ValueString (GroupUserResource.UserKey state) in
  let device := types.ValueString (GroupUserResource.Device state) in
  (pushover.GetGroup c
     (types.ValueString (GroupUserResource.GroupKey state)) log).1
  = Ok groupResp →
  GroupResponse.Users groupResp = pre ++ found :: post →
  (∀ m, m ∈ pre → GroupUserResource.matches userKey device m = false) →
  GroupUserResource.matches userKey device found = true →
  resource.State
    (GroupUserResource.Read r state (resource.newResponse state) log).1
  = Some {| GroupUserResource.GroupKey := GroupUserResource.GroupKey state;
            GroupUserResource.UserKey := GroupUserResource.UserKey state;
            GroupUserResource.Device := GroupUserResource.Device state;
            GroupUserResource.Memo :=
              if decide (GroupMember.Memo found = "")
              then GroupUserResource.Memo state
              else types.StringValue (GroupMember.Memo found);
            GroupUserResource.Disabled :=
              types.BoolValue (GroupMember.Disabled found);
            GroupUserResource.ID := GroupUserResource.ID state |}.
Proof.
  intros c userKey device Hlist Husers Hpre Hfound.
  rewrite (Read_eq r state (resource.newResponse state) log eq_refl).
  rewrite GetGroup_eq in Hlist. fold c. simpl in *.
  destruct (checked _) as [j|e]; simpl in *; [|discriminate].
  injection Hlist as <-. simpl in Husers. rewrite Husers.
  fold userKey device. rewrite (findMember_first _ _ _ _ _ _ Hpre Hfound).
  simpl. unfold observe.
  destruct (decide (GroupMember.Memo found = "")) as [He|Hne].
  - rewrite decide_False by (intros H; by apply H). reflexivity.
  - rewrite decide_True by exact Hne. reflexivity.
Qed.

Lemma C7_found_row_is_observed_witness :
  let state :=
    membership types.Null (types.Known "lead") (types.Known false)
      (types.Known "G1/U1") in
  resource.State
    (GroupUserResource.Read
       (groupUserResource
          [Body (apiJson 1 "req-1" "" [] [row "U2" "" "other" false;
                                         row "U1" "" "" true])])
       state (resource.newResponse state) []).1
  = Some (membership types.Null (types.Known "lead") (types.Known true)
            (types.Known "G1/U1")).
Proof.
  intros state.
  apply (C7_found_row_is_observed
           (groupUserResource
              [Body (apiJson 1 "req-1" "" [] [row "U2" "" "other" false;
                                             row "U1" "" "" true])])
           state []
           (pushover.toGroupResponse
              (apiJson 1 "req-1" "" [] [row "U2" "" "other" false;
                                         row "U1" "" "" true]))
           [row "U2" "" "other" false] [] (row "U1" "" "" true)).
  - rewrite GetGroup_eq. reflexivity.
  - reflexivity.
  - intros m Hm%list_elem_of_singleton. subst m. reflexivity.
  - reflexivity.
Defined.

(** ** The group-user resource: creating and updating *)

Lemma GroupCreate_eq r plan resp log :
  diag.HasError (resource.Diagnostics resp) = false →
  GroupUserResource.Create r plan resp log
  = let srv := pushover.httpClient (GroupUserResource.client r) in
    match checked (srv log (addRequestOf r plan)) with
    | Err err =>
        (resource.AddError resp "Failed to add user to group" err,
         log ++ [addRequestOf r plan])
    | Ok _ =>
        let data :=
          GroupUserResource.set_ID plan (types.StringValue (computedID plan)) in
        if wantsDisabled plan then
          match checked (srv (log ++ [addRequestOf r plan])
                           (disableRequestOf r plan)) with
          | Err err =>
              (resource.AddError resp "Failed to disable group user" err,
               (log ++ [addRequestOf r plan]) ++ [disableRequestOf r plan])
          | Ok _ =>
              (resource.StateSet resp data,
               (log ++ [addRequestOf r plan]) ++ [disableRequestOf r plan])
          end
        else (resource.StateSet resp data, log ++ [addRequestOf r plan])
    end.
Proof.
  intros Hok. unfold GroupUserResource.Create, bind. rewrite Hok.
  rewrite AddGroupUser_eq. fold (addRequestOf r plan). simpl.
  destruct (checked _) as [j|e]; simpl; [|reflexivity].
  fold (wantsDisabled plan). destruct (wantsDisabled plan); [|reflexivity].
  unfold bind. rewrite DisableGroupUser_eq. fold (disableRequestOf r plan).
  by destruct (checked _).
Qed.

Lemma wantsDisabled_true data :
  wantsDisabled data = true
  ↔ GroupUserResource.Disabled data = types.Known true.
Proof.
  unfold wantsDisabled.
  destruct (GroupUserResource.Disabled data) as [| |[]]; simpl;
    split; congruence.
Qed.

Lemma succeeded_true rt :
  succeeded rt = true ↔ ∃ j, checked rt = Ok j.
Proof.
  rewrite <- is_ok_checked. destruct (checked rt) as [j|e]; simpl.
  - split; [by exists j | done].
  - split; [done | intros [j Hj]; discriminate].
Qed.

Lemma succeeded_false rt :
  succeeded rt = false ↔ ∃ err, checked rt = Err err.
Proof.
  rewrite <- is_ok_checked. destruct (checked rt) as [j|e]; simpl.
  - split; [done | intros [j' Hj]; discriminate].
  - split; [by exists e | done].
Qed.

(** C4. With [disabled = true] planned, [Create] issues the add-member
    request first and, once that has succeeded, the disable-member request
    second. A failure of the add is reported as "Failed to add user to
    group" after one request; a failure of the disable after a successful
    add is reported as "Failed to disable group user" with the client's
    error as detail. The two reports differ, and the second is made only
    when the add has succeeded: it tells that the member was added and not
    disabled. *)
Theorem C4_disable_failure_is_reported_as_such
  (r : GroupUserResource.GroupUserResource)
  (plan : GroupUserResource.GroupUserResourceModel) (log : list Request) :
  GroupUserResource.Disabled plan = types.Known true →
  let srv := pushover.httpClient (GroupUserResource.client r) in
  let added := srv log (addRequestOf r plan) in
  let disabled := srv (log ++ [addRequestOf r plan]) (disableRequestOf r plan) in
  let out := GroupUserResource.Create r plan resource.newCreateResponse log in
  (∀ err, checked added = Err err →
     out.2 = log ++ [addRequestOf r plan]
     ∧ resource.Diagnostics out.1
       = [diag.NewErrorDiagnostic "Failed to add user to group" err])
  ∧ (succeeded added = true →
     out.2 = log ++ [addRequestOf r plan; disableRequestOf r plan])
  ∧ (succeeded added = true → ∀ err, checked disabled = Err err →
     resource.Diagnostics out.1
     = [diag.NewErrorDiagnostic "Failed to disable group user" err])
  ∧ (∀ d, d ∈ resource.Diagnostics out.1 →
          diag.Summary d = "Failed to disable group user" →
          succeeded added = true ∧ succeeded disabled = false)
  ∧ (∀ err err',
       diag.NewErrorDiagnostic "Failed to disable group user" err
       ≠ diag.NewErrorDiagnostic "Failed to add user to group" err').
Proof.
  intros Hdis srv added disabled out. subst out.
  rewrite (GroupCreate_eq r plan resource.newCreateResponse log eq_refl).
  apply wantsDisabled_true in Hdis. rewrite Hdis. cbv zeta.
  fold srv. fold added. fold disabled.
  rewrite <- !is_ok_checked.
  assert (Hneq : ∀ err err',
             diag.NewErrorDiagnostic "Failed to disable group user" err
             ≠ diag.NewErrorDiagnostic "Failed to add user to group" err')
    by (intros err err'; discriminate).
  destruct (checked added) as [ja|ea]; simpl.
  - destruct (checked disabled) as [jd|ed]; simpl.
    + split; [discriminate|]. split; [intros _; by rewrite <- app_assoc|].
      split; [intros _ err; discriminate|]. split; [|exact Hneq].
      intros d Hd. by apply not_elem_of_nil in Hd.
    + split; [discriminate|]. split; [intros _; by rewrite <- app_assoc|].
      split; [intros _ err [= <-]; reflexivity|]. split; [|exact Hneq].
      intros d Hd _. done.
  - split; [intros err [= <-]; done|]. split; [discriminate|].
    split; [discriminate|]. split; [|exact Hneq].
    intros d Hd%list_elem_of_singleton Hsum. subst d. discriminate.
Qed.

Lemma C4_disable_failure_is_reported_as_such_witness :
  let script :=
    [Body (apiJson 1 "req-1" "" [] []);
     Body (apiJson 0 "req-2" "" ["user is not a member"; "try later"] [])] in
  let plan := membership types.Null types.Null (types.Known true) types.Unknown in
  let out :=
    run (GroupUserResource.Create (groupUserResource script) plan
           resource.newCreateResponse) in
  out.2 = [addRequestOf (groupUserResource script) plan;
           disableRequestOf (groupUserResource script) plan]
  ∧ resource.Diagnostics out.1
    = [diag.NewErrorDiagnostic "Failed to disable group user"
         "pushover API error: user is not a member; try later"].
Proof.
  intros script plan out.
  pose proof (C4_disable_failure_is_reported_as_such
                (groupUserResource script) plan [] eq_refl) as H.
  cbv zeta in H. destruct H as (_ & Horder & Hreport & _).
  split.
  - apply Horder. reflexivity.
  - apply Hreport; reflexivity.
Defined.

Lemma computedID_Join (data : GroupUserResource.GroupUserResourceModel) :
  let groupKey := types.ValueString (GroupUserResource.GroupKey data) in
  let userKey := types.ValueString (GroupUserResource.UserKey data) in
  let device := types.ValueString (GroupUserResource.Device data) in
  computedID data
  = if decide (device = "") then Join [groupKey; userKey] "/"
    else Join [groupKey; userKey; device] "/".
Proof.
  intros groupKey userKey device. unfold computedID.
  fold groupKey userKey device.
  destruct (decide (device = "")) as [He|Hne].
  - rewrite decide_False by (intros H; by apply H). reflexivity.
  - rewrite decide_True by exact Hne.
    change (Join [groupKey; userKey; device] "/")
      with (groupKey +:+ "/" +:+ userKey +:+ "/" +:+ device).
    by rewrite !append_assoc.
Qed.

(** C5. When [Create] ends without an error, the stored model is the plan
    with the identifier set to the group key, the member key and, when the
    device is not empty, the device, joined with [/] in that order. A
    device that is null or empty counts as not set. *)
Theorem C5_identifier
  (r : GroupUserResource.GroupUserResource)
  (plan : GroupUserResource.GroupUserResourceModel) (log : list Request) :
  let groupKey := types.ValueString (GroupUserResource.GroupKey plan) in
  let userKey := types.ValueString (GroupUserResource.UserKey plan) in
  let device := types.ValueString (GroupUserResource.Device plan) in
  let out := GroupUserResource.Create r plan resource.newCreateResponse log in
  diag.HasError (resource.Diagnostics out.1) = false →
  resource.State out.1
  = Some (GroupUserResource.set_ID plan
            (types.StringValue
               (if decide (device = "") then Join [groupKey; userKey] "/"
                else Join [groupKey; userKey; device] "/"))).
Proof.
  intros groupKey userKey device out. subst out.
  rewrite (GroupCreate_eq r plan resource.newCreateResponse log eq_refl).
  pose proof (computedID_Join plan) as Hid. cbv zeta in Hid.
  fold groupKey userKey device in Hid. rewrite <- Hid. cbv zeta.
  destruct (checked _) as [ja|ea]; simpl; [|discriminate].
  destruct (wantsDisabled plan); [|done].
  destruct (checked _) as [jd|ed]; simpl; [done | discriminate].
Qed.

Lemma C5_identifier_witness :
  let script := [Body (apiJson 1 "req-1" "" [] [])] in
  let plan :=
    membership (types.Known "iphone") types.Null (types.Known false)
      types.Unknown in
  resource.State
    (GroupUserResource.Create (groupUserResource script) plan
       resource.newCreateResponse []).1
  = Some (membership (types.Known "iphone") types.Null (types.Known false)
            (types.Known "G1/U1/iphone")).
Proof.
  intros script plan.
  apply (C5_identifier (groupUserResource script) plan []).
  reflexivity.
Defined.

(** The identifiers of the two scenarios, by evaluation. *)
Example identifier_without_device :
  GroupUserResource.ID
  <$> resource.State
        (run (GroupUserResource.Create
                (groupUserResource [Body (apiJson 1 "req-1" "" [] [])])
                (membership types.Null (types.Known "lead") (types.Known false)
                   types.Unknown)
                resource.newCreateResponse)).1
  = Some (types.Known "G1/U1").
Proof. vm_compute. reflexivity. Qed.

Example identifier_with_device :
  GroupUserResource.ID
  <$> resource.State
        (run (GroupUserResource.Create
                (groupUserResource [Body (apiJson 1 "req-1" "" [] []);
                                    Body (apiJson 1 "req-2" "" [] [])])
                (membership (types.Known "iphone") types.Null (types.Known true)
                   types.Unknown)
                resource.newCreateResponse)).1
  = Some (types.Known "G1/U1/iphone").
Proof. vm_compute. reflexivity. Qed.

Lemma toggle_eq r data state resp log :
  GroupUserResource.toggle r data state resp log
  = let srv := pushover.httpClient (GroupUserResource.client r) in
    if decide (GroupUserResource.Disabled data
               ≠ GroupUserResource.Disabled state) then
      if types.ValueBool (GroupUserResource.Disabled data) then
        (match checked (srv log (disableRequestOf r data)) with
         | Err err => resource.AddError resp "Failed to disable group user" err
         | Ok _ => resource.StateSet resp data
         end, log ++ [disableRequestOf r data])
      else
        (match checked (srv log (enableRequestOf r data)) with
         | Err err => resource.AddError resp "Failed to enable group user" err
         | Ok _ => resource.StateSet resp data
         end, log ++ [enableRequestOf r data])
    else (resource.StateSet resp data, log).
Proof.
  unfold GroupUserResource.toggle. cbv zeta.
  destruct (decide _) as [Hd|Hd]; [|reflexivity].
  destruct (types.ValueBool _); unfold bind.
  - rewrite DisableGroupUser_eq. fold (disableRequestOf r data).
    by destruct (checked _).
  - rewrite EnableGroupUser_eq. fold (enableRequestOf r data).
    by destruct (checked _).
Qed.

Lemma Update_eq r plan state resp log :
  diag.HasError (resource.Diagnostics resp) = false →
  GroupUserResource.Update r plan state resp log
  = let srv := pushover.httpClient (GroupUserResource.client r) in
    if decide (GroupUserResource.Memo plan ≠ GroupUserResource.Memo state) then
      match checked (srv log (addRequestOf r plan)) with
      | Err err =>
          (resource.AddError resp "Failed to update group user memo" err,
           log ++ [addRequestOf r plan])
      | Ok _ =>
          GroupUserResource.toggle r plan state resp
            (log ++ [addRequestOf r plan])
      end
    else GroupUserResource.toggle r plan state resp log.
Proof.
  intros Hok. unfold GroupUserResource.Update. rewrite Hok. cbv zeta.
  destruct (decide _) as [Hm|Hm]; [|reflexivity].
  unfold bind. rewrite AddGroupUser_eq. fold (addRequestOf r plan).
  by destruct (checked _).
Qed.

(** C6. When the plan differs from the stored state only in the disabled
    flag, [Update] makes exactly one request: a POST to
    [/groups/<group>/disable_user.json] when the planned flag is true and
    to [/groups/<group>/enable_user.json] when it is false, whose form
    holds the token, the member key and, when it is not empty, the device.
    That request is the one of [DisableGroupUser], respectively
    [EnableGroupUser], and it is not an add-member request, whatever the
    arguments of the add. *)
Theorem C6_only_disabled_changed
  (r : GroupUserResource.GroupUserResource)
  (plan state : GroupUserResource.GroupUserResourceModel)
  (log : list Request) :
  differsOnlyInDisabled plan state →
  let c := GroupUserResource.client r in
  let groupKey := types.ValueString (GroupUserResource.GroupKey plan) in
  let userKey := types.ValueString (GroupUserResource.UserKey plan) in
  let device := types.ValueString (GroupUserResource.Device plan) in
  let out :=
    GroupUserResource.Update r plan state (resource.newResponse state) log in
  out.2
  = log ++ [ {| Method_ := POST;
                URL_ := pushover.baseURL c +:+ "/groups/" +:+ groupKey
                        +:+ (if types.ValueBool (GroupUserResource.Disabled plan)
                             then "/disable_user.json"
                             else "/enable_user.json");
                ContentType := Some "application/x-www-form-urlencoded";
                Form := if decide (device = "")
                        then <["user" := userKey]>
                               (<["token" := pushover.token c]> ∅)
                        else <["device" := device]>
                               (<["user" := userKey]>
                                  (<["token" := pushover.token c]> ∅)) |} ]
  ∧ out.2
    = (if types.ValueBool (GroupUserResource.Disabled plan)
       then pushover.DisableGroupUser c groupKey userKey device log
       else pushover.EnableGroupUser c groupKey userKey device log).2
  ∧ (∃ issued, out.2 = log ++ [issued]
               ∧ ∀ g u d m, issued ≠ addUserRequest c g u d m).
Proof.
  intros (_ & _ & _ & Hmemo & _ & Hdis) c groupKey userKey device out.
  subst out.
  rewrite (Update_eq r plan state (resource.newResponse state) log eq_refl).
  cbv zeta. rewrite decide_False by (intros H; by apply H).
  rewrite toggle_eq. cbv zeta. rewrite decide_True by exact Hdis.
  rewrite (DisableGroupUser_eq c groupKey userKey device log),
    (EnableGroupUser_eq c groupKey userKey device log).
  assert (Hform :
    memberParams c userKey device
    = if decide (device = "")
      then <["user" := userKey]> (<["token" := pushover.token c]> ∅)
      else <["device" := device]>
             (<["user" := userKey]> (<["token" := pushover.token c]> ∅))).
  { unfold memberParams, pushover.setIf.
    destruct (decide (device = "")) as [He|Hne].
    - by rewrite bool_decide_eq_false_2 by (intros H; by apply H).
    - by rewrite bool_decide_eq_true_2. }
  destruct (types.ValueBool (GroupUserResource.Disabled plan)); simpl.
  - split.
    { unfold disableRequestOf, disableUserRequest, postRequest.
      fold c groupKey userKey device. by rewrite Hform. }
    split; [reflexivity|].
    exists (disableRequestOf r plan). split; [reflexivity|].
    intros g u d m H. symmetry in H. revert H.
    apply addUser_neq_disableUser.
  - split.
    { unfold enableRequestOf, enableUserRequest, postRequest.
      fold c groupKey userKey device. by rewrite Hform. }
    split; [reflexivity|].
    exists (enableRequestOf r plan). split; [reflexivity|].
    intros g u d m H. symmetry in H. revert H.
    apply addUser_neq_enableUser.
Qed.

(** Both directions: disabling the member [U1] of [G1], and enabling the
    membership of [U1] that is scoped to the device [iphone]. *)
Lemma C6_only_disabled_changed_witness :
  let script := [Body (apiJson 1 "req-1" "" [] [])] in
  let enabled :=
    membership types.Null (types.Known "lead") (types.Known false)
      (types.Known "G1/U1") in
  let disabled :=
    membership types.Null (types.Known "lead") (types.Known true)
      (types.Known "G1/U1") in
  let scopedEnabled :=
    membership (types.Known "iphone") types.Null (types.Known false)
      (types.Known "G1/U1/iphone") in
  let scopedDisabled :=
    membership (types.Known "iphone") types.Null (types.Known true)
      (types.Known "G1/U1/iphone") in
  (GroupUserResource.Update (groupUserResource script) disabled enabled
     (resource.newResponse enabled) []).2
  = [ {| Method_ := POST;
         URL_ := "https://api.test/1/groups/G1/disable_user.json";
         ContentType := Some "application/x-www-form-urlencoded";
         Form := <["user" := "U1"]> (<["token" := "provider_token"]> ∅) |} ]
  ∧ (GroupUserResource.Update (groupUserResource script) scopedEnabled
       scopedDisabled (resource.newResponse scopedDisabled) []).2
    = [ {| Method_ := POST;
           URL_ := "https://api.test/1/groups/G1/enable_user.json";
           ContentType := Some "application/x-www-form-urlencoded";
           Form := <["device" := "iphone"]>
                     (<["user" := "U1"]>
                        (<["token" := "provider_token"]> ∅)) |} ].
Proof.
  intros script enabled disabled scopedEnabled scopedDisabled. split.
  - pose proof (C6_only_disabled_changed (groupUserResource script)
                  disabled enabled []) as H.
    cbv zeta in H. destruct H as [H _].
    + repeat split. discriminate.
    + exact H.
  - pose proof (C6_only_disabled_changed (groupUserResource script)
                  scopedEnabled scopedDisabled []) as H.
    cbv zeta in H. destruct H as [H _].
    + repeat split. discriminate.
    + exact H.
Defined.

(** ** Writing the state only after every call has succeeded *)

Lemma atomic_no_call srv resp resp' log : atomic srv resp log (resp', log).
Proof.
  exists []. split; [by rewrite app_nil_r|]. intros i rt Hi. discriminate.
Qed.

Lemma atomic_last_call srv resp resp' log q :
  (succeeded (srv log q) = false →
   resource.State resp' = resource.State resp) →
  atomic srv resp log (resp', log ++ [q]).
Proof.
  intros Hstate. exists [q]. split; [reflexivity|].
  intros [|i] rt; simpl; [|discriminate].
  intros [= <-] Hfail. split; [by apply Hstate | reflexivity].
Qed.

Lemma atomic_after_success srv resp log q out :
  succeeded (srv log q) = true →
  atomic srv resp (log ++ [q]) out →
  atomic srv resp log out.
Proof.
  intros Hok (reqs & Hlog & Hfail). exists (q :: reqs). split.
  - rewrite Hlog, <- app_assoc. reflexivity.
  - intros [|i] rt; simpl.
    + intros [= <-] Hno. congruence.
    + intros Hi Hno. destruct (Hfail i rt Hi Hno) as [Hst Hlen].
      split; [exact Hst | by rewrite Hlen].
Qed.

Lemma atomic_all_succeeded srv resp log out :
  atomic srv resp log out →
  resource.State out.1 ≠ resource.State resp →
  ∃ reqs, out.2 = log ++ reqs
          ∧ Forall (λ rt, succeeded rt = true) (answers srv log reqs).
Proof.
  intros (reqs & Hlog & Hfail) Hne. exists reqs. split; [exact Hlog|].
  apply Forall_lookup. intros i rt Hi.
  destruct (succeeded rt) eqn:Hs; [reflexivity|].
  destruct (Hfail i rt Hi Hs) as [Hst _]. contradiction.
Qed.

Lemma toggle_atomic r data state resp log :
  atomic (pushover.httpClient (GroupUserResource.client r)) resp log
    (GroupUserResource.toggle r data state resp log).
Proof.
  rewrite toggle_eq. cbv zeta.
  destruct (decide _) as [Hd|Hd]; [|apply atomic_no_call].
  destruct (types.ValueBool _); apply atomic_last_call;
    rewrite <- is_ok_checked; by destruct (checked _).
Qed.

(** C10. [Create] and [Update] of the group-user resource write the state
    of the response only after every call they made has succeeded: when a
    call fails, it is the last call made, and the state of the response is
    the one the handler was given; and when the state of the response has
    changed, every call made has succeeded. *)
Theorem C10_state_written_after_all_calls_succeeded
  (r : GroupUserResource.GroupUserResource)
  (plan state : GroupUserResource.GroupUserResourceModel)
  (resp : GroupUserResource.Response) (log : list Request) :
  let srv := pushover.httpClient (GroupUserResource.client r) in
  let created := GroupUserResource.Create r plan resp log in
  let updated := GroupUserResource.Update r plan state resp log in
  (atomic srv resp log created
   ∧ (resource.State created.1 ≠ resource.State resp →
      ∃ reqs, created.2 = log ++ reqs
              ∧ Forall (λ rt, succeeded rt = true) (answers srv log reqs)))
  ∧ (atomic srv resp log updated
     ∧ (resource.State updated.1 ≠ resource.State resp →
        ∃ reqs, updated.2 = log ++ reqs
                ∧ Forall (λ rt, succeeded rt = true) (answers srv log reqs))).
Proof.
  intros srv created updated.
  assert (Hc : atomic srv resp log created).
  { subst created.
    destruct (diag.HasError (resource.Diagnostics resp)) eqn:Herr.
    - unfold GroupUserResource.Create. rewrite Herr. apply atomic_no_call.
    - rewrite (GroupCreate_eq r plan resp log Herr). cbv zeta. fold srv.
      destruct (checked (srv log (addRequestOf r plan))) as [ja|ea] eqn:Ha.
      + assert (succeeded (srv log (addRequestOf r plan)) = true) as Hadd
          by (by rewrite <- is_ok_checked, Ha).
        destruct (wantsDisabled plan).
        * apply (atomic_after_success _ _ _ _ _ Hadd).
          destruct (checked (srv _ (disableRequestOf r plan))) as [jd|ed] eqn:Hd;
            apply atomic_last_call; rewrite <- is_ok_checked, Hd; done.
        * apply atomic_last_call. rewrite Hadd. discriminate.
      + apply atomic_last_call. done. }
  assert (Hu : atomic srv resp log updated).
  { subst updated.
    destruct (diag.HasError (resource.Diagnostics resp)) eqn:Herr.
    - unfold GroupUserResource.Update. rewrite Herr. apply atomic_no_call.
    - rewrite (Update_eq r plan state resp log Herr). cbv zeta. fold srv.
      destruct (decide _) as [Hm|Hm]; [|apply toggle_atomic].
      destruct (checked (srv log (addRequestOf r plan))) as [ja|ea] eqn:Ha.
      + apply (atomic_after_success _ _ _ (addRequestOf r plan)).
        * by rewrite <- is_ok_checked, Ha.
        * apply toggle_atomic.
      + apply atomic_last_call. done. }
  split; (split; [assumption | by apply atomic_all_succeeded]).
Qed.

Lemma C10_state_written_after_all_calls_succeeded_witness :
  let script :=
    [Body (apiJson 1 "req-1" "" [] []);
     Body (apiJson 0 "req-2" "" ["group not found"] [])] in
  let state :=
    membership types.Null (types.Known "lead") (types.Known false)
      (types.Known "G1/U1") in
  let plan :=
    membership types.Null (types.Known "deputy") (types.Known true)
      (types.Known "G1/U1") in
  let out :=
    GroupUserResource.Update (groupUserResource script) plan state
      (resource.newResponse state) [] in
  resource.State out.1 = Some state ∧ length out.2 = 2%nat.
Proof.
  intros script state plan out.
  pose proof (C10_state_written_after_all_calls_succeeded
                (groupUserResource script) plan state
                (resource.newResponse state) []) as H.
  cbv zeta in H. destruct H as [_ [(reqs & Hlog & Hfail) _]].
  change ([] ++ reqs) with reqs in Hlog. subst reqs.
  apply (Hfail 1%nat (Body (apiJson 0 "req-2" "" ["group not found"] [])));
    reflexivity.
Defined.

(** ** The token that each call sends *)

Lemma lookup_setIf_ne (cond : bool) (key value key' : string)
  (params : gmap string string) :
  key ≠ key' → pushover.setIf cond key value params !! key' = params !! key'.
Proof.
  intros Hne. unfold pushover.setIf. destruct cond; [|reflexivity].
  by apply lookup_insert_ne.
Qed.

Ltac token_lookup :=
  repeat first [ rewrite lookup_setIf_ne by discriminate
               | rewrite lookup_insert_ne by discriminate ];
  apply lookup_insert_eq.

Lemma messageParams_token (req : MessageRequest.t) :
  pushover.messageParams req !! "token" = Some (MessageRequest.Token req).
Proof.
  unfold pushover.messageParams. cbv zeta.
  destruct (decide (MessageRequest.Priority req = 2)); token_lookup.
Qed.

Lemma memberParams_token (c : pushover.Client) (user device : string) :
  memberParams c user device !! "token" = Some (pushover.token c).
Proof. unfold memberParams. token_lookup. Qed.

(** C9, as stated, fails for the group-membership calls: they have no
    parameter for a token. With the client configured with
    [provider_token], no choice of the arguments of [AddGroupUser],
    [RemoveGroupUser], [EnableGroupUser] or [DisableGroupUser] makes the
    call send [override_token]. *)
Lemma C9_group_calls_take_no_override :
  let c := testClient [] in
  (¬ ∃ groupKey user device memo,
       sends (pushover.AddGroupUser c groupKey user device memo) []
         (λ q, formToken q = Some "override_token"))
  ∧ (¬ ∃ groupKey user device,
         sends (pushover.RemoveGroupUser c groupKey user device) []
           (λ q, formToken q = Some "override_token"))
  ∧ (¬ ∃ groupKey user device,
         sends (pushover.EnableGroupUser c groupKey user device) []
           (λ q, formToken q = Some "override_token"))
  ∧ (¬ ∃ groupKey user device,
         sends (pushover.DisableGroupUser c groupKey user device) []
           (λ q, formToken q = Some "override_token")).
Proof.
  intros c. unfold sends, formToken. repeat split.
  - intros (g & u & d & m & q & Hq & Htok). rewrite AddGroupUser_eq in Hq.
    injection Hq as <-. unfold addUserRequest, postRequest in Htok.
    simpl in Htok. rewrite lookup_setIf_ne, memberParams_token in Htok;
      discriminate.
  - intros (g & u & d & q & Hq & Htok). rewrite RemoveGroupUser_eq in Hq.
    injection Hq as <-. unfold removeUserRequest, postRequest in Htok.
    simpl in Htok. rewrite memberParams_token in Htok. discriminate.
  - intros (g & u & d & q & Hq & Htok). rewrite EnableGroupUser_eq in Hq.
    injection Hq as <-. unfold enableUserRequest, postRequest in Htok.
    simpl in Htok. rewrite memberParams_token in Htok. discriminate.
  - intros (g & u & d & q & Hq & Htok). rewrite DisableGroupUser_eq in Hq.
    injection Hq as <-. unfold disableUserRequest, postRequest in Htok.
    simpl in Htok. rewrite memberParams_token in Htok. discriminate.
Qed.

Ltac one_request :=
  unfold sends, bind, ret; rewrite ?doPost_eq, ?doGet_eq;
  eexists; split;
  [ match goal with
    | |- context [checked ?rt] => destruct (checked rt); reflexivity
    end
  | ].

(** C9, amended. [SendMessage] and [ValidateUser] send the token of the
    request when it is not empty and the configured token otherwise. Every
    other call sends the configured token and has no parameter that could
    replace it: the POST calls ([CancelReceipt], [RenameGroup] and the four
    group-member calls) in the form, the GET calls ([GetReceipt],
    [GetSounds], [GetGroup]) query-escaped in the URL. Each call makes
    exactly one request. *)
Theorem C9_token_sent (c : pushover.Client) (log : list Request) :
  (∀ req,
     sends (pushover.SendMessage c req) log
       (λ q, formToken q
             = Some (if decide (MessageRequest.Token req = "")
                     then pushover.token c else MessageRequest.Token req)))
  ∧ (∀ req,
       sends (pushover.ValidateUser c req) log
         (λ q, formToken q
               = Some (if decide (ValidateRequest.Token req = "")
                       then pushover.token c else ValidateRequest.Token req)))
  ∧ (∀ receipt,
       sends (pushover.CancelReceipt c receipt) log
         (λ q, formToken q = Some (pushover.token c)))
  ∧ (∀ groupKey name,
       sends (pushover.RenameGroup c groupKey name) log
         (λ q, formToken q = Some (pushover.token c)))
  ∧ (∀ groupKey user device memo,
       sends (pushover.AddGroupUser c groupKey user device memo) log
         (λ q, formToken q = Some (pushover.token c)))
  ∧ (∀ groupKey user device,
       sends (pushover.RemoveGroupUser c groupKey user device) log
         (λ q, formToken q = Some (pushover.token c)))
  ∧ (∀ groupKey user device,
       sends (pushover.EnableGroupUser c groupKey user device) log
         (λ q, formToken q = Some (pushover.token c)))
  ∧ (∀ groupKey user device,
       sends (pushover.DisableGroupUser c groupKey user device) log
         (λ q, formToken q = Some (pushover.token c)))
  ∧ (∀ receipt,
       sends (pushover.GetReceipt c receipt) log
         (λ q, formToken q = None
               ∧ URL_ q = pushover.baseURL c +:+ "/receipts/" +:+ receipt
                          +:+ ".json?token=" +:+ QueryEscape (pushover.token c)))
  ∧ sends (pushover.GetSounds c) log
      (λ q, formToken q = None
            ∧ URL_ q = pushover.baseURL c +:+ "/sounds.json?token="
                       +:+ QueryEscape (pushover.token c))
  ∧ (∀ groupKey,
       sends (pushover.GetGroup c groupKey) log
         (λ q, formToken q = None
               ∧ URL_ q = pushover.baseURL c +:+ "/groups/" +:+ groupKey
                          +:+ ".json?token=" +:+ QueryEscape (pushover.token c))).
Proof.
  repeat apply conj.
  - intros req. unfold pushover.SendMessage. one_request.
    unfold formToken, postRequest; simpl. rewrite messageParams_token.
    by destruct (decide (MessageRequest.Token req = "")).
  - intros req. unfold pushover.ValidateUser. one_request.
    unfold formToken, postRequest; simpl. token_lookup.
  - intros receipt. unfold pushover.CancelReceipt. one_request.
    unfold formToken, postRequest; simpl. token_lookup.
  - intros groupKey name. unfold pushover.RenameGroup. one_request.
    unfold formToken, postRequest; simpl. token_lookup.
  - intros groupKey user device memo. unfold pushover.AddGroupUser. one_request.
    unfold formToken, postRequest; simpl. token_lookup.
  - intros groupKey user device. unfold pushover.RemoveGroupUser. one_request.
    unfold formToken, postRequest; simpl. token_lookup.
  - intros groupKey user device. unfold pushover.EnableGroupUser. one_request.
    unfold formToken, postRequest; simpl. token_lookup.
  - intros groupKey user device. unfold pushover.DisableGroupUser. one_request.
    unfold formToken, postRequest; simpl. token_lookup.
  - intros receipt. unfold pushover.GetReceipt. one_request.
    unfold formToken, getRequest; simpl. split; [apply lookup_empty|].
    reflexivity.
  - unfold pushover.GetSounds. one_request.
    unfold formToken, getRequest; simpl. split; [apply lookup_empty|].
    reflexivity.
  - intros groupKey. unfold pushover.GetGroup. one_request.
    unfold formToken, getRequest; simpl. split; [apply lookup_empty|].
    reflexivity.
Qed.

(** * Further properties of the client *)

Lemma lookup_setIf_eq (cond : bool) (key value : string)
  (params : gmap string string) :
  pushover.setIf cond key value params !! key
  = if cond then Some value else params !! key.
Proof.
  unfold pushover.setIf. destruct cond; [apply lookup_insert_eq | reflexivity].
Qed.

(** X1. [doPost] and [doGet] return a body exactly when the round trip
    produced a decoded body whose status is 1; a decoded body with any
    other status is returned as an error that carries the remote's error
    messages, joined with "; ". *)
Theorem X1_only_status_1_is_success
  (c : pushover.Client) (path : string) (params : gmap string string)
  (log : list Request) (j : Json) :
  ((pushover.doPost c path params log).1 = Ok j
   ↔ pushover.httpClient c log (postRequest c path params) = Body j
     ∧ json_status j = 1)
  ∧ ((pushover.doGet c path log).1 = Ok j
     ↔ pushover.httpClient c log (getRequest c path) = Body j
       ∧ json_status j = 1)
  ∧ (pushover.httpClient c log (postRequest c path params) = Body j →
     json_status j ≠ 1 →
     (pushover.doPost c path params log).1
     = Err ("pushover API error: " +:+ Join (json_errors j) "; "))
  ∧ (pushover.httpClient c log (getRequest c path) = Body j →
     json_status j ≠ 1 →
     (pushover.doGet c path log).1
     = Err ("pushover API error: " +:+ Join (json_errors j) "; ")).
Proof.
  rewrite doPost_eq, doGet_eq. simpl.
  split; [apply checked_ok|]. split; [apply checked_ok|].
  split; intros -> Hne; simpl; by rewrite decide_True.
Qed.

Lemma X1_only_status_1_is_success_witness :
  (pushover.doPost (testClient [Body (apiJson 0 "req-1" "" ["bad user"; "bad token"] [])])
     "/messages.json" ∅ []).1
  = Err "pushover API error: bad user; bad token".
Proof.
  apply (proj1 (proj2 (proj2 (X1_only_status_1_is_success
           (testClient [Body (apiJson 0 "req-1" "" ["bad user"; "bad token"] [])])
           "/messages.json" ∅ []
           (apiJson 0 "req-1" "" ["bad user"; "bad token"] []))))).
  - reflexivity.
  - discriminate.
Defined.

Ltac ok_status :=
  unfold bind, ret; rewrite ?doPost_eq, ?doGet_eq;
  match goal with
  | |- context [checked ?rt] =>
      let E := fresh "E" in
      destruct (checked rt) eqn:E; simpl; intros [= <-];
      apply checked_ok in E as [_ E]; exact E
  end.

(** X2. A response that a client method returns without an error has
    status 1: no method hands a body that the remote marked as failed to
    its caller. *)
Theorem X2_returned_response_has_status_1
  (c : pushover.Client) (log : list Request) :
  (∀ req resp, (pushover.SendMessage c req log).1 = Ok resp →
     APIResponse.Status (MessageResponse.API resp) = 1)
  ∧ (∀ receipt resp, (pushover.GetReceipt c receipt log).1 = Ok resp →
       APIResponse.Status (ReceiptResponse.API resp) = 1)
  ∧ (∀ receipt resp, (pushover.CancelReceipt c receipt log).1 = Ok resp →
       APIResponse.Status resp = 1)
  ∧ (∀ req resp, (pushover.ValidateUser c req log).1 = Ok resp →
       APIResponse.Status (ValidateResponse.API resp) = 1)
  ∧ (∀ groupKey resp, (pushover.GetGroup c groupKey log).1 = Ok resp →
       APIResponse.Status (GroupResponse.API resp) = 1)
  ∧ (∀ groupKey name resp,
       (pushover.RenameGroup c groupKey name log).1 = Ok resp →
       APIResponse.Status resp = 1)
  ∧ (∀ groupKey user device memo resp,
       (pushover.AddGroupUser c groupKey user device memo log).1 = Ok resp →
       APIResponse.Status resp = 1)
  ∧ (∀ groupKey user device resp,
       (pushover.RemoveGroupUser c groupKey user device log).1 = Ok resp →
       APIResponse.Status resp = 1)
  ∧ (∀ groupKey user device resp,
       (pushover.EnableGroupUser c groupKey user device log).1 = Ok resp →
       APIResponse.Status resp = 1)
  ∧ (∀ groupKey user device resp,
       (pushover.DisableGroupUser c groupKey user device log).1 = Ok resp →
       APIResponse.Status resp = 1).
Proof.
  repeat apply conj.
  - intros req resp. unfold pushover.SendMessage. ok_status.
  - intros receipt resp. unfold pushover.GetReceipt. ok_status.
  - intros receipt resp. unfold pushover.CancelReceipt. ok_status.
  - intros req resp. unfold pushover.ValidateUser. ok_status.
  - intros groupKey resp. unfold pushover.GetGroup. ok_status.
  - intros groupKey name resp. unfold pushover.RenameGroup. ok_status.
  - intros groupKey user device memo resp. unfold pushover.AddGroupUser.
    ok_status.
  - intros groupKey user device resp. unfold pushover.RemoveGroupUser.
    ok_status.
  - intros groupKey user device resp. unfold pushover.EnableGroupUser.
    ok_status.
  - intros groupKey user device resp. unfold pushover.DisableGroupUser.
    ok_status.
Qed.

Lemma X2_returned_response_has_status_1_witness :
  APIResponse.Status
    (pushover.toAPIResponse (apiJson 1 "req-1" "" [] [])) = 1.
Proof.
  pose proof (X2_returned_response_has_status_1
                (testClient [Body (apiJson 1 "req-1" "" [] [])]) []) as H.
  destruct H as (_ & _ & _ & _ & _ & _ & Hadd & _).
  apply (Hadd "G1" "U1" "" "lead"). reflexivity.
Defined.

Ltac skip_other_keys :=
  repeat first [ rewrite lookup_setIf_ne by congruence
               | rewrite lookup_insert_ne by congruence ].

Ltac form_lookup :=
  skip_other_keys;
  first [ apply lookup_insert_eq
        | rewrite lookup_setIf_eq; skip_other_keys;
          rewrite ?lookup_empty; reflexivity
        | apply lookup_empty ].

Lemma optional_string (s : string) :
  (if bool_decide (s ≠ "") then Some s else None)
  = (if decide (s = "") then None else Some s).
Proof.
  destruct (decide (s = "")) as [->|Hne]; [reflexivity|].
  by rewrite bool_decide_eq_true_2.
Qed.

Lemma optional_number (n : Z) :
  (if bool_decide (n ≠ 0) then Some (Itoa n) else None)
  = (if decide (n = 0) then None else Some (Itoa n)).
Proof.
  destruct (decide (n = 0)) as [->|Hne]; [reflexivity|].
  by rewrite bool_decide_eq_true_2.
Qed.

(** Every lookup in the form of a message. *)
Lemma messageParams_lookup (req : MessageRequest.t) :
  let form := pushover.messageParams req in
  form !! "token" = Some (MessageRequest.Token req)
  ∧ form !! "user" = Some (MessageRequest.User req)
  ∧ form !! "message" = Some (MessageRequest.Message req)
  ∧ form !! "priority" = Some (Itoa (MessageRequest.Priority req))
  ∧ form !! "title"
    = (if decide (MessageRequest.Title req = "") then None
       else Some (MessageRequest.Title req))
  ∧ form !! "url"
    = (if decide (MessageRequest.URL req = "") then None
       else Some (MessageRequest.URL req))
  ∧ form !! "url_title"
    = (if decide (MessageRequest.URLTitle req = "") then None
       else Some (MessageRequest.URLTitle req))
  ∧ form !! "sound"
    = (if decide (MessageRequest.Sound req = "") then None
       else Some (MessageRequest.Sound req))
  ∧ form !! "device"
    = (if decide (MessageRequest.Device req = "") then None
       else Some (MessageRequest.Device req))
  ∧ form !! "timestamp"
    = (if decide (MessageRequest.Timestamp req = 0) then None
       else Some (Itoa (MessageRequest.Timestamp req)))
  ∧ form !! "html"
    = (if decide (MessageRequest.HTML req = 0) then None
       else Some (Itoa (MessageRequest.HTML req)))
  ∧ form !! "monospace"
    = (if decide (MessageRequest.Monospace req = 0) then None
       else Some (Itoa (MessageRequest.Monospace req)))
  ∧ form !! "ttl"
    = (if decide (MessageRequest.TTL req = 0) then None
       else Some (Itoa (MessageRequest.TTL req)))
  ∧ form !! "retry"
    = (if decide (MessageRequest.Priority req = 2)
       then Some (Itoa (MessageRequest.Retry req)) else None)
  ∧ form !! "expire"
    = (if decide (MessageRequest.Priority req = 2)
       then Some (Itoa (MessageRequest.Expire req)) else None)
  ∧ form !! "callback"
    = (if decide (MessageRequest.Priority req = 2)
       then if decide (MessageRequest.Callback req = "") then None
            else Some (MessageRequest.Callback req)
       else None)
  ∧ dom form ⊆ messageKeys.
Proof.
  intros form. subst form. unfold pushover.messageParams. cbv zeta.
  rewrite <- !optional_string, <- !optional_number.
  destruct (decide (MessageRequest.Priority req = 2)) as [Hp|Hp].
  - repeat apply conj; try form_lookup.
    intros k Hk. apply elem_of_dom in Hk.
    destruct (decide (k ∈ messageKeys)) as [Hin|Hout]; [exact Hin|].
    exfalso. unfold messageKeys in Hout.
    rewrite !not_elem_of_union, !not_elem_of_singleton in Hout.
    destruct Hout as ((((((((((((((( ? & ?) & ?) & ?) & ?) & ?) & ?) & ?)
                                & ?) & ?) & ?) & ?) & ?) & ?) & ?) & ?).
    revert Hk. skip_other_keys. rewrite lookup_empty. by intros [v Hv].
  - repeat apply conj; try form_lookup.
    intros k Hk. apply elem_of_dom in Hk.
    destruct (decide (k ∈ messageKeys)) as [Hin|Hout]; [exact Hin|].
    exfalso. unfold messageKeys in Hout.
    rewrite !not_elem_of_union, !not_elem_of_singleton in Hout.
    destruct Hout as ((((((((((((((( ? & ?) & ?) & ?) & ?) & ?) & ?) & ?)
                                & ?) & ?) & ?) & ?) & ?) & ?) & ?) & ?).
    revert Hk. skip_other_keys. rewrite lookup_empty. by intros [v Hv].
Qed.

(** * Further properties of the message resource *)

Lemma Create_request r plan log :
  dispatched plan →
  (MessageResource.Create r plan resource.newCreateResponse log).2
  = log ++ [sendMessageRequest (MessageResource.client r) (requestSent plan)].
Proof.
  intros Hd.
  rewrite (Create_dispatched r plan resource.newCreateResponse log eq_refl Hd).
  rewrite send_eq. reflexivity.
Qed.

(** The request that reaches the form keeps every field of the request
    that [Create] built before the priority check, apart from the token
    and the three emergency fields. *)
Lemma sent_fields (c : pushover.Client)
  (plan : MessageResource.MessageResourceModel) :
  let sent := settleToken c (requestSent plan) in
  let built := MessageResource.buildRequest plan in
  MessageRequest.User sent = MessageRequest.User built
  ∧ MessageRequest.Message sent = MessageRequest.Message built
  ∧ MessageRequest.Title sent = MessageRequest.Title built
  ∧ MessageRequest.URL sent = MessageRequest.URL built
  ∧ MessageRequest.URLTitle sent = MessageRequest.URLTitle built
  ∧ MessageRequest.Priority sent = MessageRequest.Priority built
  ∧ MessageRequest.Sound sent = MessageRequest.Sound built
  ∧ MessageRequest.Device sent = MessageRequest.Device built
  ∧ MessageRequest.Timestamp sent = MessageRequest.Timestamp built
  ∧ MessageRequest.HTML sent = MessageRequest.HTML built
  ∧ MessageRequest.Monospace sent = MessageRequest.Monospace built
  ∧ MessageRequest.TTL sent = MessageRequest.TTL built.
Proof.
  intros sent built. subst sent built. unfold settleToken, requestSent.
  cbv zeta.
  destruct (decide (MessageRequest.Priority _ = 2));
    [destruct (negb _)|]; destruct (decide (MessageRequest.Token _ = ""));
    repeat split.
Qed.

Lemma sent_emergency_fields (c : pushover.Client)
  (plan : MessageResource.MessageResourceModel) :
  MessageResource.Priority plan = types.Known 2 →
  let sent := settleToken c (requestSent plan) in
  MessageRequest.Retry sent
  = int (types.ValueInt64 (MessageResource.Retry plan))
  ∧ MessageRequest.Expire sent
    = int (types.ValueInt64 (MessageResource.Expire plan)).
Proof.
  intros Hp%buildRequest_priority sent. subst sent.
  unfold settleToken, requestSent. cbv zeta.
  destruct (decide (MessageRequest.Priority _ = 2)) as [_|Hn];
    [|contradiction].
  destruct (negb _); destruct (decide (MessageRequest.Token _ = ""));
    split; reflexivity.
Qed.

Lemma sent_token (c : pushover.Client)
  (plan : MessageResource.MessageResourceModel) :
  MessageRequest.Token (settleToken c (requestSent plan))
  = match MessageResource.APIToken plan with
    | types.Known t => if decide (t = "") then pushover.token c else t
    | _ => pushover.token c
    end.
Proof.
  assert (Htok : MessageRequest.Token (requestSent plan)
                 = types.ValueString (MessageResource.APIToken plan)).
  { unfold requestSent. cbv zeta.
    destruct (decide (MessageRequest.Priority _ = 2));
      [destruct (negb _)|]; simpl;
      by destruct (MessageResource.APIToken plan). }
  unfold settleToken.
  destruct (decide (MessageRequest.Token (requestSent plan) = ""))
    as [He|Hne]; simpl.
  - rewrite Htok in He.
    destruct (MessageResource.APIToken plan) as [| |t]; simpl in *;
      try reflexivity.
    by rewrite decide_True.
  - rewrite Htok in Hne |- *.
    destruct (MessageResource.APIToken plan) as [| |t]; simpl in *;
      try contradiction.
    by rewrite decide_False.
Qed.

(** X4. Below priority 2 the request of a message create carries no
    retry, expire or callback, whatever the plan holds for them. At
    priority 2, with retry and expire known, it carries both with the
    planned values. *)
Theorem X4_emergency_fields_only_at_priority_2
  (r : MessageResource.MessageResource)
  (plan : MessageResource.MessageResourceModel) (log : list Request) :
  let out := MessageResource.Create r plan resource.newCreateResponse log in
  (MessageResource.Priority plan ≠ types.Known 2 →
   ∃ q, out.2 = log ++ [q]
        ∧ Form q !! "retry" = None
        ∧ Form q !! "expire" = None
        ∧ Form q !! "callback" = None)
  ∧ (∀ retry expire,
       MessageResource.Priority plan = types.Known 2 →
       MessageResource.Retry plan = types.Known retry →
       MessageResource.Expire plan = types.Known expire →
       ∃ q, out.2 = log ++ [q]
            ∧ Form q !! "priority" = Some "2"
            ∧ Form q !! "retry" = Some (Itoa retry)
            ∧ Form q !! "expire" = Some (Itoa expire)).
Proof.
  intros out. subst out. split.
  - intros Hp. eexists. split.
    + apply Create_request. intros [Hp2 _]. contradiction.
    + unfold sendMessageRequest, postRequest; simpl.
      unfold pushover.messageParams. cbv zeta.
      destruct (sent_fields (MessageResource.client r) plan)
        as (_ & _ & _ & _ & _ & Hprio & _). cbv zeta in Hprio.
      rewrite decide_False.
      * repeat split; form_lookup.
      * rewrite Hprio. by rewrite buildRequest_priority.
  - intros retry expire Hp Hr He. eexists. split.
    + apply Create_request. intros [_ [H|H]]; congruence.
    + unfold sendMessageRequest, postRequest; simpl.
      unfold pushover.messageParams. cbv zeta.
      destruct (sent_fields (MessageResource.client r) plan)
        as (_ & _ & _ & _ & _ & Hprio & _). cbv zeta in Hprio.
      destruct (sent_emergency_fields (MessageResource.client r) plan Hp)
        as [Hretry Hexpire].
      assert (Hp2 : MessageRequest.Priority
                      (settleToken (MessageResource.client r)
                         (requestSent plan)) = 2)
        by (rewrite Hprio; by apply buildRequest_priority).
      rewrite decide_True by exact Hp2.
      rewrite Hp2, Hretry, Hexpire, Hr, He. simpl.
      repeat split; form_lookup.
Qed.

Lemma X4_emergency_fields_only_at_priority_2_witness :
  let plan := messagePlan (types.Known 1) (types.Known 60) (types.Known 3600) in
  ∃ q, (MessageResource.Create (messageResource []) plan
          resource.newCreateResponse []).2 = [] ++ [q]
       ∧ Form q !! "retry" = None
       ∧ Form q !! "expire" = None
       ∧ Form q !! "callback" = None.
Proof.
  intros plan.
  apply (proj1 (X4_emergency_fields_only_at_priority_2
                  (messageResource []) plan [])).
  discriminate.
Defined.

(** X5. The token that a message create sends is the plan's [api_token]
    when that is known and not empty, and the provider's token when it is
    null, unknown or empty. *)
Theorem X5_message_token
  (r : MessageResource.MessageResource)
  (plan : MessageResource.MessageResourceModel) (log : list Request) :
  dispatched plan →
  ∃ q, (MessageResource.Create r plan resource.newCreateResponse log).2
       = log ++ [q]
       ∧ Form q !! "token"
         = Some (match MessageResource.APIToken plan with
                 | types.Known t =>
                     if decide (t = "")
                     then pushover.token (MessageResource.client r) else t
                 | _ => pushover.token (MessageResource.client r)
                 end).
Proof.
  intros Hd. eexists. split; [by apply Create_request|].
  unfold sendMessageRequest, postRequest; simpl.
  rewrite messageParams_token, sent_token. reflexivity.
Qed.

Lemma X5_message_token_witness :
  ∃ q, (MessageResource.Create (messageResource [])
          (messagePlan (types.Known 0) types.Null types.Null)
          resource.newCreateResponse []).2 = [] ++ [q]
       ∧ Form q !! "token" = Some "provider_token".
Proof.
  apply (X5_message_token (messageResource [])
           (messagePlan (types.Known 0) types.Null types.Null) []).
  intros [H _]. discriminate.
Defined.

(** X3. [SendMessage] makes one POST request to [/messages.json]. Its
    form always holds the user, the message and the priority. An optional
    string is present exactly when it is not empty, an optional number
    exactly when it is not zero. Retry and expire are present exactly when
    the priority is 2, the callback when moreover it is not empty. The
    form holds no other key than the sixteen of a message. *)
Theorem X3_message_form (c : pushover.Client) (req : MessageRequest.t)
  (log : list Request) :
  ∃ q, (pushover.SendMessage c req log).2 = log ++ [q]
  ∧ Method_ q = POST
  ∧ URL_ q = pushover.baseURL c +:+ "/messages.json"
  ∧ Form q !! "user" = Some (MessageRequest.User req)
  ∧ Form q !! "message" = Some (MessageRequest.Message req)
  ∧ Form q !! "priority" = Some (Itoa (MessageRequest.Priority req))
  ∧ Form q !! "title"
    = (if decide (MessageRequest.Title req = "") then None
       else Some (MessageRequest.Title req))
  ∧ Form q !! "url"
    = (if decide (MessageRequest.URL req = "") then None
       else Some (MessageRequest.URL req))
  ∧ Form q !! "url_title"
    = (if decide (MessageRequest.URLTitle req = "") then None
       else Some (MessageRequest.URLTitle req))
  ∧ Form q !! "sound"
    = (if decide (MessageRequest.Sound req = "") then None
       else Some (MessageRequest.Sound req))
  ∧ Form q !! "device"
    = (if decide (MessageRequest.Device req = "") then None
       else Some (MessageRequest.Device req))
  ∧ Form q !! "timestamp"
    = (if decide (MessageRequest.Timestamp req = 0) then None
       else Some (Itoa (MessageRequest.Timestamp req)))
  ∧ Form q !! "html"
    = (if decide (MessageRequest.HTML req = 0) then None
       else Some (Itoa (MessageRequest.HTML req)))
  ∧ Form q !! "monospace"
    = (if decide (MessageRequest.Monospace req = 0) then None
       else Some (Itoa (MessageRequest.Monospace req)))
  ∧ Form q !! "ttl"
    = (if decide (MessageRequest.TTL req = 0) then None
       else Some (Itoa (MessageRequest.TTL req)))
  ∧ Form q !! "retry"
    = (if decide (MessageRequest.Priority req = 2)
       then Some (Itoa (MessageRequest.Retry req)) else None)
  ∧ Form q !! "expire"
    = (if decide (MessageRequest.Priority req = 2)
       then Some (Itoa (MessageRequest.Expire req)) else None)
  ∧ Form q !! "callback"
    = (if decide (MessageRequest.Priority req = 2)
       then if decide (MessageRequest.Callback req = "") then None
            else Some (MessageRequest.Callback req)
       else None)
  ∧ dom (Form q) ⊆ messageKeys.
Proof.
  exists (sendMessageRequest c req). rewrite SendMessage_eq.
  split; [reflexivity|]. split; [reflexivity|]. split; [reflexivity|].
  unfold sendMessageRequest, postRequest; simpl.
  pose proof (messageParams_lookup (settleToken c req)) as H.
  cbv zeta in H. unfold settleToken in *.
  destruct (decide (MessageRequest.Token req = "")); simpl in H; tauto.
Qed.

Lemma sentString_built (v : types.String) :
  (let s := if negb (types.IsNull v) then types.ValueString v else "" in
   if decide (s = "") then None else Some s) = sentString v.
Proof. by destruct v. Qed.

Lemma sentNumber_built (v : types.Int64) :
  (let n := if negb (types.IsNull v) then int (types.ValueInt64 v) else 0 in
   if decide (n = 0) then None else Some (Itoa n)) = sentNumber v.
Proof. by destruct v. Qed.

Lemma sentFlag_built (v : types.Bool) :
  (let n := if negb (types.IsNull v) && types.ValueBool v then 1 else 0 in
   if decide (n = 0) then None else Some (Itoa n)) = sentFlag v.
Proof. by destruct v as [| |[]]. Qed.

(** X6. How a message create maps the optional attributes of the plan to
    its request: a string attribute is sent when it is known and not
    empty, a number when it is known and not zero, a flag (as "1") when it
    is known and true; a null, unknown, empty, zero or false attribute is
    left out of the form. The priority is always sent, as 0 when the plan
    holds none. *)
Theorem X6_optional_attributes
  (r : MessageResource.MessageResource)
  (plan : MessageResource.MessageResourceModel) (log : list Request) :
  dispatched plan →
  ∃ q, (MessageResource.Create r plan resource.newCreateResponse log).2
       = log ++ [q]
  ∧ Form q !! "user"
    = Some (types.ValueString (MessageResource.UserKey plan))
  ∧ Form q !! "message"
    = Some (types.ValueString (MessageResource.Message plan))
  ∧ Form q !! "priority"
    = Some (Itoa (types.ValueInt64 (MessageResource.Priority plan)))
  ∧ Form q !! "title" = sentString (MessageResource.Title plan)
  ∧ Form q !! "url" = sentString (MessageResource.URL plan)
  ∧ Form q !! "url_title" = sentString (MessageResource.URLTitle plan)
  ∧ Form q !! "sound" = sentString (MessageResource.Sound plan)
  ∧ Form q !! "device" = sentString (MessageResource.Device plan)
  ∧ Form q !! "timestamp" = sentNumber (MessageResource.Timestamp plan)
  ∧ Form q !! "ttl" = sentNumber (MessageResource.TTL plan)
  ∧ Form q !! "html" = sentFlag (MessageResource.HTML plan)
  ∧ Form q !! "monospace" = sentFlag (MessageResource.Monospace plan).
Proof.
  intros Hd. eexists. split; [by apply Create_request|].
  unfold sendMessageRequest, postRequest; simpl.
  pose proof (messageParams_lookup
                (settleToken (MessageResource.client r) (requestSent plan)))
    as (_ & Huser & Hmsg & Hprio & Htitle & Hurl & Hurlt & Hsound & Hdev
        & Hts & Hhtml & Hmono & Httl & _).
  destruct (sent_fields (MessageResource.client r) plan)
    as (Euser & Emsg & Etitle & Eurl & Eurlt & Eprio & Esound & Edev & Ets
        & Ehtml & Emono & Ettl).
  cbv zeta in *.
  rewrite Euser in Huser. rewrite Emsg in Hmsg. rewrite Eprio in Hprio.
  rewrite Etitle in Htitle. rewrite Eurl in Hurl. rewrite Eurlt in Hurlt.
  rewrite Esound in Hsound. rewrite Edev in Hdev. rewrite Ets in Hts.
  rewrite Ehtml in Hhtml. rewrite Emono in Hmono. rewrite Ettl in Httl.
  split; [exact Huser|]. split; [exact Hmsg|].
  split; [rewrite Hprio; simpl; by destruct (MessageResource.Priority plan)|].
  split; [rewrite Htitle; apply sentString_built|].
  split; [rewrite Hurl; apply sentString_built|].
  split; [rewrite Hurlt; apply sentString_built|].
  split; [rewrite Hsound; apply sentString_built|].
  split; [rewrite Hdev; apply sentString_built|].
  split; [rewrite Hts; simpl;
          by destruct (MessageResource.Timestamp plan)|].
  split; [rewrite Httl; apply sentNumber_built|].
  split; [rewrite Hhtml; apply sentFlag_built|].
  rewrite Hmono; apply sentFlag_built.
Qed.

Lemma X6_optional_attributes_witness :
  ∃ q, (MessageResource.Create (messageResource [])
          (messagePlan types.Null types.Null types.Null)
          resource.newCreateResponse []).2 = [] ++ [q]
  ∧ Form q !! "user" = Some "U1"
  ∧ Form q !! "message" = Some "disk full"
  ∧ Form q !! "priority" = Some "0"
  ∧ Form q !! "title" = None
  ∧ Form q !! "url" = None
  ∧ Form q !! "url_title" = None
  ∧ Form q !! "sound" = None
  ∧ Form q !! "device" = None
  ∧ Form q !! "timestamp" = None
  ∧ Form q !! "ttl" = None
  ∧ Form q !! "html" = None
  ∧ Form q !! "monospace" = None.
Proof.
  apply (X6_optional_attributes (messageResource [])
           (messagePlan types.Null types.Null types.Null) []).
  intros [H _]. discriminate.
Defined.

(** X7. A message create ends in one of two ways: it stores the state and
    reports no error, or it reports an error and stores nothing. It makes
    at most one request, and when that request fails the client's error
    is the detail of the one diagnostic "Failed to send Pushover message". *)
Theorem X7_message_create_outcome
  (r : MessageResource.MessageResource)
  (plan : MessageResource.MessageResourceModel) (log : list Request) :
  let out := MessageResource.Create r plan resource.newCreateResponse log in
  (diag.HasError (resource.Diagnostics out.1) = true
   ↔ resource.State out.1 = None)
  ∧ (∃ reqs, out.2 = log ++ reqs ∧ (length reqs ≤ 1)%nat)
  ∧ (∀ q err,
       out.2 = log ++ [q] →
       checked (pushover.httpClient (MessageResource.client r) log q)
       = Err err →
       resource.Diagnostics out.1
       = [diag.NewErrorDiagnostic "Failed to send Pushover message" err]).
Proof.
  intros out. subst out.
  destruct (decide (dispatched plan)) as [Hd|Hd].
  - rewrite (Create_dispatched r plan resource.newCreateResponse log eq_refl Hd).
    rewrite send_eq.
    destruct (checked _) as [j|e] eqn:Hsend; simpl.
    + split; [split; discriminate|]. split.
      * exists [sendMessageRequest (MessageResource.client r) (requestSent plan)].
        split; [reflexivity | simpl; lia].
      * intros q err Hq%app_inv_head. injection Hq as <-. congruence.
    + split; [done|]. split.
      * exists [sendMessageRequest (MessageResource.client r) (requestSent plan)].
        split; [reflexivity | simpl; lia].
      * intros q err Hq%app_inv_head. injection Hq as <-.
        rewrite Hsend. by intros [= <-].
  - unfold dispatched in Hd. apply dec_stable in Hd. destruct Hd as [Hp Hn].
    rewrite (Create_rejected r plan resource.newCreateResponse log eq_refl Hp Hn).
    simpl. split; [done|]. split.
    + exists []. split; [by rewrite app_nil_r | simpl; lia].
    + intros q err Hq. exfalso.
      apply (f_equal length) in Hq. rewrite length_app in Hq. simpl in Hq. lia.
Qed.

Lemma X7_message_create_outcome_witness :
  resource.Diagnostics
    (MessageResource.Create
       (messageResource [Body (apiJson 0 "req-1" "" ["user key is invalid"] [])])
       (messagePlan (types.Known 0) types.Null types.Null)
       resource.newCreateResponse []).1
  = [diag.NewErrorDiagnostic "Failed to send Pushover message"
       "pushover API error: user key is invalid"].
Proof.
  pose proof (X7_message_create_outcome
                (messageResource
                   [Body (apiJson 0 "req-1" "" ["user key is invalid"] [])])
                (messagePlan (types.Known 0) types.Null types.Null) []) as H.
  cbv zeta in H. destruct H as (_ & _ & H).
  apply (H (sendMessageRequest
              (testClient
                 [Body (apiJson 0 "req-1" "" ["user key is invalid"] [])])
              (requestSent (messagePlan (types.Known 0) types.Null types.Null))));
    reflexivity.
Defined.

(** * Further properties of the group-user resource *)

(** X8. [Delete] makes exactly one request, the delete-member request for
    the stored group, member and device (the device only when it is not
    empty). It never changes the state of the response, and it reports
    the one diagnostic "Failed to remove user from group", with the
    client's error as detail, exactly when that request fails. *)
Theorem X8_delete
  (r : GroupUserResource.GroupUserResource)
  (state : GroupUserResource.GroupUserResourceModel) (log : list Request) :
  let c := GroupUserResource.client r in
  let groupKey := types.ValueString (GroupUserResource.GroupKey state) in
  let userKey := types.ValueString (GroupUserResource.UserKey state) in
  let device := types.ValueString (GroupUserResource.Device state) in
  let out :=
    GroupUserResource.Delete r state (resource.newResponse state) log in
  ∃ q, out.2 = log ++ [q]
  ∧ URL_ q = pushover.baseURL c +:+ "/groups/" +:+ groupKey
             +:+ "/delete_user.json"
  ∧ Form q !! "user" = Some userKey
  ∧ Form q !! "device" = (if decide (device = "") then None else Some device)
  ∧ Form q !! "memo" = None
  ∧ resource.State out.1 = Some state
  ∧ (succeeded (pushover.httpClient c log q) = true →
     resource.Diagnostics out.1 = [])
  ∧ (∀ err, checked (pushover.httpClient c log q) = Err err →
     resource.Diagnostics out.1
     = [diag.NewErrorDiagnostic "Failed to remove user from group" err]).
Proof.
  intros c groupKey userKey device out. subst out.
  exists (removeUserRequest c groupKey userKey device).
  unfold GroupUserResource.Delete, bind. simpl.
  rewrite RemoveGroupUser_eq. fold c groupKey userKey device.
  rewrite <- is_ok_checked.
  split; [by destruct (checked _)|]. split; [reflexivity|].
  unfold removeUserRequest, postRequest, memberParams; simpl.
  rewrite <- optional_string.
  split; [form_lookup|]. split; [form_lookup|]. split; [form_lookup|].
  destruct (checked _) as [j|e]; simpl.
  - split; [reflexivity|]. split; [reflexivity | discriminate].
  - split; [reflexivity|]. split; [discriminate | by intros err [= <-]].
Qed.

Lemma X8_delete_witness :
  let state :=
    membership (types.Known "iphone") types.Null (types.Known false)
      (types.Known "G1/U1/iphone") in
  resource.Diagnostics
    (GroupUserResource.Delete
       (groupUserResource [Body (apiJson 0 "req-1" "" ["user not in group"] [])])
       state (resource.newResponse state) []).1
  = [diag.NewErrorDiagnostic "Failed to remove user from group"
       "pushover API error: user not in group"].
Proof.
  intros state.
  pose proof (X8_delete
                (groupUserResource
                   [Body (apiJson 0 "req-1" "" ["user not in group"] [])])
                state []) as H.
  cbv zeta in H. destruct H as (q & Hq & _ & _ & _ & _ & _ & _ & Herr).
  apply Herr. apply app_inv_head in Hq. injection Hq as <-. reflexivity.
Defined.

Lemma slashFree_cons (x : ascii) (s : string) :
  slashFree (String x s) ↔ x ≠ "/"%char ∧ slashFree s.
Proof.
  unfold slashFree. simpl. rewrite not_elem_of_cons.
  split; intros [H1 H2]; split; auto.
Qed.

Lemma slashFree_append_slash (a b : string) : ¬ slashFree (a +:+ "/" +:+ b).
Proof.
  unfold slashFree. rewrite list_ascii_of_string_app. intros H. apply H.
  apply elem_of_app. right. apply list_elem_of_here.
Qed.

Lemma append_nil_l (s : string) : "" +:+ s = s.
Proof. reflexivity. Qed.

Lemma append_cons (x : ascii) (a s : string) :
  String x a +:+ s = String x (a +:+ s).
Proof. reflexivity. Qed.

(** A separator after a part without separator marks the end of that
    part. *)
Lemma split_at_slash (a a' b b' : string) :
  slashFree a → slashFree a' →
  a +:+ "/" +:+ b = a' +:+ "/" +:+ b' → a = a' ∧ b = b'.
Proof.
  revert a'. induction a as [|x a IH]; intros [|x' a'] Ha Ha' Heq;
    repeat (rewrite append_nil_l in Heq || rewrite append_cons in Heq).
  - by injection Heq as ->.
  - injection Heq as <- _. apply slashFree_cons in Ha' as [Hx _]. done.
  - injection Heq as -> _. apply slashFree_cons in Ha as [Hx _]. done.
  - injection Heq as -> Heq.
    apply slashFree_cons in Ha as [_ Ha].
    apply slashFree_cons in Ha' as [_ Ha'].
    destruct (IH a' Ha Ha' Heq) as [-> ->]. done.
Qed.

Lemma Create_stored r plan log st :
  resource.State
    (GroupUserResource.Create r plan resource.newCreateResponse log).1
  = Some st →
  st = GroupUserResource.set_ID plan (types.StringValue (computedID plan)).
Proof.
  rewrite (GroupCreate_eq r plan resource.newCreateResponse log eq_refl).
  cbv zeta. destruct (checked _) as [ja|ea]; simpl; [|discriminate].
  destruct (wantsDisabled plan); [|by intros [= <-]].
  destruct (checked _) as [jd|ed]; simpl; [by intros [= <-] | discriminate].
Qed.

(** X9. The identifier tells memberships apart: when the group keys and
    the member keys hold no [/], two creates that store the same
    identifier were given the same group key, member key and device. *)
Theorem X9_identifier_unique
  (r r' : GroupUserResource.GroupUserResource)
  (plan plan' st st' : GroupUserResource.GroupUserResourceModel)
  (log log' : list Request) :
  slashFree (types.ValueString (GroupUserResource.GroupKey plan)) →
  slashFree (types.ValueString (GroupUserResource.UserKey plan)) →
  slashFree (types.ValueString (GroupUserResource.GroupKey plan')) →
  slashFree (types.ValueString (GroupUserResource.UserKey plan')) →
  resource.State
    (GroupUserResource.Create r plan resource.newCreateResponse log).1
  = Some st →
  resource.State
    (GroupUserResource.Create r' plan' resource.newCreateResponse log').1
  = Some st' →
  GroupUserResource.ID st = GroupUserResource.ID st' →
  types.ValueString (GroupUserResource.GroupKey plan)
  = types.ValueString (GroupUserResource.GroupKey plan')
  ∧ types.ValueString (GroupUserResource.UserKey plan)
    = types.ValueString (GroupUserResource.UserKey plan')
  ∧ types.ValueString (GroupUserResource.Device plan)
    = types.ValueString (GroupUserResource.Device plan').
Proof.
  intros Hg Hu Hg' Hu' Hst%Create_stored Hst'%Create_stored Hid.
  subst st st'. simpl in Hid. injection Hid as Hid.
  unfold computedID in Hid. cbv zeta in Hid.
  set (g := types.ValueString (GroupUserResource.GroupKey plan)) in *.
  set (u := types.ValueString (GroupUserResource.UserKey plan)) in *.
  set (d := types.ValueString (GroupUserResource.Device plan)) in *.
  set (g' := types.ValueString (GroupUserResource.GroupKey plan')) in *.
  set (u' := types.ValueString (GroupUserResource.UserKey plan')) in *.
  set (d' := types.ValueString (GroupUserResource.Device plan')) in *.
  destruct (decide (d ≠ "")) as [Hd|Hd];
    destruct (decide (d' ≠ "")) as [Hd'|Hd'];
    rewrite ?append_assoc in Hid;
    try apply dec_stable in Hd; try apply dec_stable in Hd'.
  - change (g +:+ "/" +:+ (u +:+ "/" +:+ d)
            = g' +:+ "/" +:+ (u' +:+ "/" +:+ d')) in Hid.
    apply split_at_slash in Hid as [-> Hid]; [|done..].
    apply split_at_slash in Hid as [-> ->]; done.
  - change (g +:+ "/" +:+ (u +:+ "/" +:+ d) = g' +:+ "/" +:+ u') in Hid.
    apply split_at_slash in Hid as [_ Hid]; [|done..].
    rewrite <- Hid in Hu'. by apply slashFree_append_slash in Hu'.
  - change (g +:+ "/" +:+ u = g' +:+ "/" +:+ (u' +:+ "/" +:+ d')) in Hid.
    apply split_at_slash in Hid as [_ Hid]; [|done..].
    rewrite Hid in Hu. by apply slashFree_append_slash in Hu.
  - apply split_at_slash in Hid as [-> ->]; [|done..].
    rewrite Hd, Hd'. done.
Qed.

Lemma X9_identifier_unique_witness :
  types.ValueString (types.Known "G1") = types.ValueString (types.Known "G1")
  ∧ types.ValueString (types.Known "U1") = types.ValueString (types.Known "U1")
  ∧ types.ValueString (types.Known "iphone")
    = types.ValueString (types.Known "iphone").
Proof.
  apply (X9_identifier_unique
           (groupUserResource [Body (apiJson 1 "req-1" "" [] [])])
           (groupUserResource [Body (apiJson 1 "req-2" "" [] [])])
           (membership (types.Known "iphone") (types.Known "lead")
              (types.Known false) types.Unknown)
           (membership (types.Known "iphone") types.Null
              (types.Known false) types.Unknown)
           (membership (types.Known "iphone") (types.Known "lead")
              (types.Known false) (types.Known "G1/U1/iphone"))
           (membership (types.Known "iphone") types.Null
              (types.Known false) (types.Known "G1/U1/iphone"))
           [] []);
    try (by apply (bool_decide_unpack _)); reflexivity.
Defined.

(** X10. An update whose plan has the stored memo and the stored disabled
    flag makes no request: it stores the plan and reports nothing. *)
Theorem X10_update_without_change
  (r : GroupUserResource.GroupUserResource)
  (plan state : GroupUserResource.GroupUserResourceModel)
  (log : list Request) :
  GroupUserResource.Memo plan = GroupUserResource.Memo state →
  GroupUserResource.Disabled plan = GroupUserResource.Disabled state →
  GroupUserResource.Update r plan state (resource.newResponse state) log
  = ({| resource.Diagnostics := []; resource.State := Some plan |}, log).
Proof.
  intros Hmemo Hdis.
  rewrite (Update_eq r plan state (resource.newResponse state) log eq_refl).
  cbv zeta. rewrite decide_False by (intros H; by apply H).
  rewrite toggle_eq. cbv zeta. rewrite decide_False by (intros H; by apply H).
  reflexivity.
Qed.

Lemma X10_update_without_change_witness :
  let state :=
    membership types.Null (types.Known "lead") (types.Known false)
      (types.Known "G1/U1") in
  GroupUserResource.Update (groupUserResource []) state state
    (resource.newResponse state) []
  = ({| resource.Diagnostics := []; resource.State := Some state |}, []).
Proof.
  intros state.
  apply (X10_update_without_change (groupUserResource []) state state []);
    reflexivity.
Defined.

(** X11. When the planned memo differs from the stored one, [Update]
    first makes the add-member request with the planned memo; the form of
    that request has no memo key when the planned memo is null or empty.
    When the add fails, nothing else is requested, the state stays as it
    was and the failure is reported as "Failed to update group user memo".
    When the add succeeds and the disabled flag differs too, the
    enable/disable request follows as the second and last request. *)
Theorem X11_update_of_memo
  (r : GroupUserResource.GroupUserResource)
  (plan state : GroupUserResource.GroupUserResourceModel)
  (log : list Request) :
  GroupUserResource.Memo plan ≠ GroupUserResource.Memo state →
  let srv := pushover.httpClient (GroupUserResource.client r) in
  let memo := types.ValueString (GroupUserResource.Memo plan) in
  let add := addRequestOf r plan in
  let out :=
    GroupUserResource.Update r plan state (resource.newResponse state) log in
  Form add !! "memo" = (if decide (memo = "") then None else Some memo)
  ∧ (∀ err, checked (srv log add) = Err err →
       out = ({| resource.Diagnostics :=
                   [diag.NewErrorDiagnostic
                      "Failed to update group user memo" err];
                 resource.State := Some state |}, log ++ [add]))
  ∧ (succeeded (srv log add) = true →
     GroupUserResource.Disabled plan = GroupUserResource.Disabled state →
     out = ({| resource.Diagnostics := []; resource.State := Some plan |},
            log ++ [add]))
  ∧ (succeeded (srv log add) = true →
     GroupUserResource.Disabled plan ≠ GroupUserResource.Disabled state →
     out.2 = log ++ [add;
                     if types.ValueBool (GroupUserResource.Disabled plan)
                     then disableRequestOf r plan
                     else enableRequestOf r plan]).
Proof.
  intros Hmemo srv memo add out. subst out. split.
  { unfold add, addRequestOf, addUserRequest, postRequest, memberParams; simpl.
    fold memo. rewrite <- optional_string. form_lookup. }
  rewrite (Update_eq r plan state (resource.newResponse state) log eq_refl).
  cbv zeta. rewrite decide_True by exact Hmemo. fold srv add.
  rewrite <- is_ok_checked.
  destruct (checked (srv log add)) as [ja|ea]; simpl.
  - split; [discriminate|]. rewrite toggle_eq. cbv zeta. split.
    + intros _ Hdis. rewrite decide_False by (intros H; by apply H).
      reflexivity.
    + intros _ Hdis. rewrite decide_True by exact Hdis.
      destruct (types.ValueBool _); simpl; by rewrite <- app_assoc.
  - split; [by intros err [= <-]|]. split; discriminate.
Qed.

Lemma X11_update_of_memo_witness :
  let state :=
    membership types.Null (types.Known "lead") (types.Known false)
      (types.Known "G1/U1") in
  let plan :=
    membership types.Null types.Null (types.Known false)
      (types.Known "G1/U1") in
  Form (addRequestOf (groupUserResource []) plan) !! "memo" = None.
Proof.
  intros state plan.
  apply (proj1 (X11_update_of_memo (groupUserResource []) plan state []
                  ltac:(discriminate))).
Defined.

Lemma findMember_identity users userKey device data :
  let found := (GroupUserResource.findMember users userKey device data).2 in
  GroupUserResource.GroupKey found = GroupUserResource.GroupKey data
  ∧ GroupUserResource.UserKey found = GroupUserResource.UserKey data
  ∧ GroupUserResource.Device found = GroupUserResource.Device data
  ∧ GroupUserResource.ID found = GroupUserResource.ID data.
Proof.
  induction users as [|m users IH]; simpl; [done|].
  destruct (GroupUserResource.matches userKey device m); [|exact IH].
  simpl. by destruct (decide (GroupMember.Memo m ≠ "")).
Qed.

(** X12. [Read] never touches the identity of the entity: whatever the
    listing holds, the state it leaves is either removed or has the stored
    group key, member key, device and identifier. When the listing fails,
    the state is left exactly as stored. *)
Theorem X12_read_keeps_identity
  (r : GroupUserResource.GroupUserResource)
  (state : GroupUserResource.GroupUserResourceModel) (log : list Request) :
  let out := GroupUserResource.Read r state (resource.newResponse state) log in
  (resource.State out.1 = None
   ∨ ∃ st, resource.State out.1 = Some st
           ∧ GroupUserResource.GroupKey st = GroupUserResource.GroupKey state
           ∧ GroupUserResource.UserKey st = GroupUserResource.UserKey state
           ∧ GroupUserResource.Device st = GroupUserResource.Device state
           ∧ GroupUserResource.ID st = GroupUserResource.ID state)
  ∧ (diag.HasError (resource.Diagnostics out.1) = true →
     resource.State out.1 = Some state).
Proof.
  intros out. subst out.
  rewrite (Read_eq r state (resource.newResponse state) log eq_refl). simpl.
  destruct (checked _) as [j|e]; simpl.
  - pose proof (findMember_identity (json_users j)
                  (types.ValueString (GroupUserResource.UserKey state))
                  (types.ValueString (GroupUserResource.Device state)) state)
      as Hid.
    cbv zeta in Hid.
    destruct (GroupUserResource.findMember _ _ _ _) as [[] data]; simpl in *.
    + split; [right; by exists data | discriminate].
    + split; [by left | discriminate].
  - split; [|done]. right. by exists state.
Qed.

Lemma X12_read_keeps_identity_witness :
  let state :=
    membership types.Null (types.Known "lead") (types.Known false)
      (types.Known "G1/U1") in
  resource.State
    (GroupUserResource.Read (groupUserResource [NotSent "timeout"]) state
       (resource.newResponse state) []).1
  = Some state.
Proof.
  intros state.
  apply (proj2 (X12_read_keeps_identity
                  (groupUserResource [NotSent "timeout"]) state [])).
  reflexivity.
Defined.

(** X13. Without [disabled = true] in the plan (false, null or unknown),
    [Create] makes the add-member request and no other: it never enables
    or disables. The state is stored, with the planned fields and the
    computed identifier, exactly when the add succeeds. *)
Theorem X13_create_enabled
  (r : GroupUserResource.GroupUserResource)
  (plan : GroupUserResource.GroupUserResourceModel) (log : list Request) :
  GroupUserResource.Disabled plan ≠ types.Known true →
  let added :=
    pushover.httpClient (GroupUserResource.client r) log (addRequestOf r plan) in
  let out := GroupUserResource.Create r plan resource.newCreateResponse log in
  out.2 = log ++ [addRequestOf r plan]
  ∧ (succeeded added = true →
     out.1 = {| resource.Diagnostics := [];
                resource.State :=
                  Some (GroupUserResource.set_ID plan
                          (types.StringValue (computedID plan))) |})
  ∧ (succeeded added = false → resource.State out.1 = None).
Proof.
  intros Hdis added out. subst out.
  rewrite (GroupCreate_eq r plan resource.newCreateResponse log eq_refl).
  cbv zeta. fold added. rewrite <- is_ok_checked.
  assert (wantsDisabled plan = false) as ->.
  { destruct (wantsDisabled plan) eqn:Hw; [|reflexivity].
    apply wantsDisabled_true in Hw. contradiction. }
  destruct (checked added) as [j|e]; simpl; repeat split; done.
Qed.

Lemma X13_create_enabled_witness :
  let plan := membership types.Null (types.Known "lead") types.Null types.Unknown in
  (GroupUserResource.Create
     (groupUserResource [Body (apiJson 1 "req-1" "" [] [])]) plan
     resource.newCreateResponse []).2
  = [] ++ [addRequestOf
             (groupUserResource [Body (apiJson 1 "req-1" "" [] [])]) plan].
Proof.
  intros plan.
  apply (proj1 (X13_create_enabled
                  (groupUserResource [Body (apiJson 1 "req-1" "" [] [])])
                  plan [] ltac:(discriminate))).
Defined.

(** * Properties of the provider and of the data sources *)

(** X14. The provider's [Configure] settles on the [api_token] attribute
    when it is known (also when it is the empty string) and on the
    environment variable [PUSHOVER_API_TOKEN] when the attribute is null
    or unknown. With an empty token it reports an error and hands out no
    client; otherwise it hands the same client, with that token and the
    default base URL, to data sources and resources. A client it hands out
    never has an empty token. *)
Theorem X14_provider_configure
  (getenv : string -> string) (net : Server)
  (config : PushoverProvider.PushoverProviderModel) :
  let resolved := resolvedToken getenv config in
  let out := PushoverProvider.Configure getenv net config newConfigureResponse in
  (resolved = "" →
   diag.HasError (PushoverProvider.Diagnostics out) = true
   ∧ PushoverProvider.DataSourceData out = None
   ∧ PushoverProvider.ResourceData out = None)
  ∧ (resolved ≠ "" →
     PushoverProvider.Diagnostics out = []
     ∧ PushoverProvider.DataSourceData out
       = Some (pushover.NewClient net resolved)
     ∧ PushoverProvider.ResourceData out
       = Some (pushover.NewClient net resolved))
  ∧ (∀ c, PushoverProvider.ResourceData out = Some c
          ∨ PushoverProvider.DataSourceData out = Some c →
          pushover.token c ≠ ""
          ∧ pushover.baseURL c = "https://api.pushover.net/1").
Proof.
  intros resolved out. subst out.
  unfold PushoverProvider.Configure. simpl.
  assert (Hres :
    (if negb (types.IsNull (PushoverProvider.APIToken config))
        && negb (types.IsUnknown (PushoverProvider.APIToken config))
     then types.ValueString (PushoverProvider.APIToken config)
     else getenv "PUSHOVER_API_TOKEN") = resolved).
  { unfold resolved, resolvedToken.
    by destruct (PushoverProvider.APIToken config). }
  rewrite Hres.
  destruct (decide (resolved = "")) as [He|Hne]; simpl.
  - split; [done|]. split; [done|]. intros c [H|H]; discriminate.
  - split; [done|]. split; [done|].
    intros c [[= <-]|[= <-]]; simpl; done.
Qed.

Lemma X14_provider_configure_witness :
  let config := {| PushoverProvider.APIToken := types.Known "" |} in
  let getenv := fun _ : string => "token_from_environment" in
  diag.HasError
    (PushoverProvider.Diagnostics
       (PushoverProvider.Configure getenv (scripted []) config
          newConfigureResponse)) = true
  ∧ PushoverProvider.DataSourceData
      (PushoverProvider.Configure getenv (scripted []) config
         newConfigureResponse) = None
  ∧ PushoverProvider.ResourceData
      (PushoverProvider.Configure getenv (scripted []) config
         newConfigureResponse) = None.
Proof.
  intros config getenv.
  apply (proj1 (X14_provider_configure getenv (scripted []) config)).
  reflexivity.
Defined.

(** X15. The validate-user data source makes one request. It sends the
    [api_token] of the configuration when that is known and not empty and
    the provider's token otherwise, the user key, and the device when it
    is known and not empty. When the request succeeds it stores the
    configuration with the user key as identifier, [is_group] true
    exactly when the response's group field is 1, and the devices and
    licenses of the response as known lists. When it fails it stores
    nothing and reports "Failed to validate Pushover user". *)
Theorem X15_validate_user_read
  (d : ValidateUserDataSource.ValidateUserDataSource)
  (config : ValidateUserDataSource.ValidateUserDataSourceModel)
  (log : list Request) :
  let c := ValidateUserDataSource.client d in
  let out :=
    ValidateUserDataSource.Read d config resource.newCreateResponse log in
  ∃ q, out.2 = log ++ [q]
  ∧ URL_ q = pushover.baseURL c +:+ "/users/validate.json"
  ∧ Form q !! "token"
    = Some (match ValidateUserDataSource.APIToken config with
            | types.Known t => if decide (t = "") then pushover.token c else t
            | _ => pushover.token c
            end)
  ∧ Form q !! "user"
    = Some (types.ValueString (ValidateUserDataSource.UserKey config))
  ∧ Form q !! "device" = sentString (ValidateUserDataSource.Device config)
  ∧ (∀ j, pushover.httpClient c log q = Body j → json_status j = 1 →
       out.1
       = {| resource.Diagnostics := [];
            resource.State :=
              Some {| ValidateUserDataSource.UserKey :=
                        ValidateUserDataSource.UserKey config;
                      ValidateUserDataSource.Device :=
                        ValidateUserDataSource.Device config;
                      ValidateUserDataSource.APIToken :=
                        ValidateUserDataSource.APIToken config;
                      ValidateUserDataSource.IsGroup :=
                        types.Known (bool_decide (json_group j = 1));
                      ValidateUserDataSource.Devices :=
                        types.Known (json_devices j);
                      ValidateUserDataSource.Licenses :=
                        types.Known (json_licenses j);
                      ValidateUserDataSource.ID :=
                        ValidateUserDataSource.UserKey config |} |})
  ∧ (∀ err, checked (pushover.httpClient c log q) = Err err →
       out.1
       = {| resource.Diagnostics :=
              [diag.NewErrorDiagnostic "Failed to validate Pushover user" err];
            resource.State := None |}).
Proof.
  intros c out. subst out.
  unfold ValidateUserDataSource.Read, pushover.ValidateUser, bind, ret.
  simpl. rewrite doPost_eq. fold c.
  eexists. split; [by destruct (checked _)|].
  split; [reflexivity|]. unfold postRequest; simpl.
  split.
  { skip_other_keys. rewrite lookup_insert_eq.
    destruct (ValidateUserDataSource.APIToken config) as [| |t]; simpl;
      reflexivity. }
  split; [form_lookup|].
  split.
  { rewrite lookup_setIf_eq. skip_other_keys. rewrite lookup_empty.
    destruct (ValidateUserDataSource.Device config) as [| |t]; simpl;
      try reflexivity.
    apply optional_string. }
  split.
  - intros j Hj Hstatus.
    assert (checked (pushover.httpClient c log
                       (postRequest c "/users/validate.json"
                          _)) = Ok j) as Hok by (by apply checked_ok).
    unfold postRequest in Hok. rewrite Hok. reflexivity.
  - intros err Herr. rewrite Herr. reflexivity.
Qed.

Lemma X15_validate_user_read_witness :
  (ValidateUserDataSource.Read
     {| ValidateUserDataSource.client := testClient [NotSent "timeout"] |}
     (validateConfig types.Null types.Unknown)
     resource.newCreateResponse []).1
  = {| resource.Diagnostics :=
         [diag.NewErrorDiagnostic "Failed to validate Pushover user"
            "sending request: timeout"];
       resource.State := None |}.
Proof.
  pose proof (X15_validate_user_read
                {| ValidateUserDataSource.client :=
                     testClient [NotSent "timeout"] |}
                (validateConfig types.Null types.Unknown) []) as H.
  cbv zeta in H. destruct H as (q & Hq & _ & _ & _ & _ & _ & Herr).
  apply Herr. reflexivity.
Defined.

(** The map that [collect] builds, for any list of sounds. *)
Lemma collect_eq (sounds : list Sound.t) :
  SoundsDataSource.collect sounds
  = (list_to_map (reverse (entryOf <$> sounds)), Sound.Key <$> sounds).
Proof.
  unfold SoundsDataSource.collect.
  assert (Hgo : ∀ l (m : gmap string string) (ks : list string),
    foldl (fun acc s =>
             (<[Sound.Key s := Sound.Name s]> acc.1, acc.2 ++ [Sound.Key s]))
      (m, ks) l
    = (list_to_map (reverse (entryOf <$> l)) ∪ m, ks ++ (Sound.Key <$> l))).
  { induction l as [|s l IH]; intros m ks.
    - simpl. by rewrite (left_id_L ∅ (∪)), app_nil_r.
    - cbn [foldl fst snd]. rewrite IH, !fmap_cons, reverse_cons.
      rewrite list_to_map_app, <- (assoc_L (∪)), <- app_assoc. f_equal.
      f_equal. rewrite insert_union_singleton_l. f_equal. }
  rewrite Hgo. by rewrite (right_id_L ∅ (∪)).
Qed.

Lemma collect_of_map (m : gmap string string) (sounds : list Sound.t) :
  entryOf <$> sounds ≡ₚ map_to_list m →
  (SoundsDataSource.collect sounds).1 = m
  ∧ NoDup (SoundsDataSource.collect sounds).2
  ∧ ∀ k, k ∈ (SoundsDataSource.collect sounds).2 ↔ is_Some (m !! k).
Proof.
  intros Hperm. rewrite collect_eq. simpl.
  assert (Hkeys : Sound.Key <$> sounds ≡ₚ (map_to_list m).*1).
  { rewrite <- Hperm, <- list_fmap_compose. reflexivity. }
  split; [|split].
  - rewrite <- (list_to_map_to_list m). symmetry.
    apply list_to_map_proper; [apply NoDup_fst_map_to_list|].
    by rewrite reverse_Permutation, Hperm.
  - rewrite Hkeys. apply NoDup_fst_map_to_list.
  - intros k. rewrite Hkeys. rewrite list_elem_of_fmap. split.
    + intros ([k' v] & -> & Hin). apply elem_of_map_to_list in Hin. by exists v.
    + intros [v Hv]. exists (k, v). split; [reflexivity|].
      by apply elem_of_map_to_list.
Qed.

Lemma SoundsRead_eq (d : SoundsDataSource.SoundsDataSource)
  (log : list Request) :
  let c := SoundsDataSource.client d in
  let q := getRequest c ("/sounds.json?token=" +:+ QueryEscape (pushover.token c)) in
  SoundsDataSource.Read d resource.newCreateResponse log
  = (match checked (pushover.httpClient c log q) with
     | Err err =>
         resource.AddError resource.newCreateResponse
           "Failed to fetch Pushover sounds" err
     | Ok j =>
         resource.StateSet resource.newCreateResponse
           {| SoundsDataSource.Sounds :=
                types.Known
                  (SoundsDataSource.collect (soundsOf (json_sounds j))).1;
              SoundsDataSource.Keys :=
                types.Known
                  (SoundsDataSource.collect (soundsOf (json_sounds j))).2;
              SoundsDataSource.ID := types.StringValue "sounds" |}
     end, log ++ [q]).
Proof.
  intros c q.
  unfold SoundsDataSource.Read, pushover.GetSounds, bind, ret.
  rewrite doGet_eq. fold c q.
  destruct (checked _) as [j|e]; simpl; [|reflexivity].
  fold (soundsOf (json_sounds j)).
  by destruct (SoundsDataSource.collect _).
Qed.

Lemma soundsOf_entries (m : gmap string string) :
  entryOf <$> soundsOf m = map_to_list m.
Proof.
  unfold soundsOf. rewrite <- list_fmap_compose.
  rewrite (list_fmap_ext _ id (map_to_list m)); [by rewrite list_fmap_id|].
  intros i [k v] _. reflexivity.
Qed.

(** X16. The sounds data source makes one GET request. When it succeeds,
    the map it stores is the map of the response, the keys it stores are
    the keys of that map, each once, and the identifier is [sounds]. The
    map and the set of keys that the loop builds do not depend on the
    order in which the sounds are enumerated: for every enumeration of a
    map, the loop gives that map, and its keys in the order of the
    enumeration, each once. When the request fails, nothing is stored and
    the failure is reported as "Failed to fetch Pushover sounds". *)
Theorem X16_sounds_read
  (d : SoundsDataSource.SoundsDataSource) (log : list Request) :
  let c := SoundsDataSource.client d in
  let q := getRequest c ("/sounds.json?token=" +:+ QueryEscape (pushover.token c)) in
  let out := SoundsDataSource.Read d resource.newCreateResponse log in
  out.2 = log ++ [q]
  ∧ (∀ j, pushover.httpClient c log q = Body j → json_status j = 1 →
       ∃ keys,
         out.1
         = {| resource.Diagnostics := [];
              resource.State :=
                Some {| SoundsDataSource.Sounds := types.Known (json_sounds j);
                        SoundsDataSource.Keys := types.Known keys;
                        SoundsDataSource.ID := types.Known "sounds" |} |}
         ∧ NoDup keys
         ∧ length keys = size (json_sounds j)
         ∧ ∀ k, k ∈ keys ↔ is_Some (json_sounds j !! k))
  ∧ (∀ (m : gmap string string) (sounds : list Sound.t),
       entryOf <$> sounds ≡ₚ map_to_list m →
       (SoundsDataSource.collect sounds).1 = m
       ∧ (SoundsDataSource.collect sounds).2 = Sound.Key <$> sounds
       ∧ NoDup (SoundsDataSource.collect sounds).2
       ∧ ∀ k, k ∈ (SoundsDataSource.collect sounds).2 ↔ is_Some (m !! k))
  ∧ (∀ err, checked (pushover.httpClient c log q) = Err err →
       out.1
       = {| resource.Diagnostics :=
              [diag.NewErrorDiagnostic "Failed to fetch Pushover sounds" err];
            resource.State := None |}).
Proof.
  intros c q out. subst out.
  pose proof (SoundsRead_eq d log) as Heq. cbv zeta in Heq. fold c q in Heq.
  rewrite Heq. simpl.
  split; [reflexivity|]. split; [|split].
  - intros j Hj Hstatus.
    assert (checked (pushover.httpClient c log q) = Ok j) as ->
      by (by apply checked_ok).
    destruct (collect_of_map (json_sounds j) (soundsOf (json_sounds j)))
      as (Hmap & Hnodup & Hkeys); [by rewrite soundsOf_entries|].
    eexists. split; [|split; [exact Hnodup | split; [|exact Hkeys]]].
    + unfold resource.StateSet; simpl. by rewrite Hmap.
    + rewrite collect_eq. simpl. unfold soundsOf.
      rewrite !length_fmap. apply length_map_to_list.
  - intros m sounds Hperm.
    destruct (collect_of_map m sounds Hperm) as (Hmap & Hnodup & Hkeys).
    split; [exact Hmap|]. split; [by rewrite collect_eq|].
    split; [exact Hnodup | exact Hkeys].
  - intros err ->. reflexivity.
Qed.

(** Two sounds: the loop runs twice, and the stored map is the map of the
    response. *)
Lemma X16_sounds_read_witness :
  let sounds : gmap string string :=
    <["bike" := "Bike"]> (<["pushover" := "Pushover (default)"]> ∅) in
  ∃ keys,
    (SoundsDataSource.Read
       {| SoundsDataSource.client := testClient [Body (soundsJson sounds)] |}
       resource.newCreateResponse []).1
    = {| resource.Diagnostics := [];
         resource.State :=
           Some {| SoundsDataSource.Sounds := types.Known sounds;
                   SoundsDataSource.Keys := types.Known keys;
                   SoundsDataSource.ID := types.Known "sounds" |} |}
    ∧ NoDup keys
    ∧ length keys = size sounds
    ∧ ∀ k, k ∈ keys ↔ is_Some (sounds !! k).
Proof.
  intros sounds.
  pose proof (X16_sounds_read
                {| SoundsDataSource.client :=
                     testClient [Body (soundsJson sounds)] |} [])
    as H.
  cbv zeta in H. destruct H as (_ & Hok & _).
  apply (Hok (soundsJson sounds)); reflexivity.
Defined.
